(** * PyWebIO: the HTTP long-poll session broker ([pywebio/platform/httpbased.py])

    A shallow embedding of [HttpHandler]: the class-level session registry
    ([_webio_sessions]), the activity index ([_webio_expire]), the expiration
    sweep, the origin policy and the per-request state machine of
    [handle_request], followed by the properties the specification states
    about them.

    Conventions.
    - Timestamps ([time.time()]) and durations are integers counting a fixed
      unit of time; the clock is an oracle read once per call of [time.time()].
    - Session objects live in a store addressed by reference, so that the
      local variable [webio_session] of the handler and the registry entry
      alias the same object, as they do in Python.
    - Every call of a session method is appended to a log. *)

From Stdlib Require Import ZArith Lia.
From stdpp Require Import gmap strings list fin_maps sorting.

Set Warnings "-register-all".
Local Open Scope string_scope.
Local Open Scope Z_scope.
Local Open Scope list_scope.

(** ** Values exchanged with the client *)

(** JSON-serialisable Python values: commands, client events, bodies. *)
Inductive json : Type :=
| JNull
| JBool (b : bool)
| JNum (z : Z)
| JStr (s : string)
| JArr (items : list json)
| JObj (fields : list (string * json)).

(** [dict(command='close_session')] *)
Definition close_session_command : json :=
  JObj [("command", JStr "close_session")].

(** Truth value of a Python [str]. *)
Definition truthy (s : string) : bool :=
  match s with
  | EmptyString => false
  | String _ _ => true
  end.

(** Truth value of [d.get(k)] / of an optional string: [None] and [''] are falsy. *)
Definition truthy_opt (o : option string) : bool :=
  match o with
  | Some s => truthy s
  | None => false
  end.

(** [x or d] on an optional number: [None] and [0] are falsy. *)
Definition py_or (x : option Z) (d : Z) : Z :=
  match x with
  | Some v => if v =? 0 then d else v
  | None => d
  end.

(** ** HttpContext: the request and the response under construction *)

Record Request : Type := mkRequest {
  request_method : string;
  request_headers : gmap string string;
  request_url_parameter : string -> option string;
  request_json : option json;
  get_client_ip : string;
  backend_name : string
}.

Record Response : Type := mkResponse {
  resp_status : Z;
  resp_headers : list (string * string);
  resp_content : option (json * bool)
}.

(** Modelled from the spec: the concrete [HttpContext] adapters are not part
    of this module; a response whose status is never set is answered with
    status 200, no header and no body until the handler sets them. *)
Definition new_response : Response :=
  {| resp_status := 200; resp_headers := []; resp_content := None |}.

Definition set_header (name value : string) (c : Response) : Response :=
  {| resp_status := resp_status c;
     resp_headers := resp_headers c ++ [(name, value)];
     resp_content := resp_content c |}.

Definition set_status (st : Z) (c : Response) : Response :=
  {| resp_status := st;
     resp_headers := resp_headers c;
     resp_content := resp_content c |}.

Definition set_content (content : json) (json_type : bool) (c : Response) : Response :=
  {| resp_status := resp_status c;
     resp_headers := resp_headers c;
     resp_content := Some (content, json_type) |}.

(** ** External collaborators *)

(** What the handler hands to the session constructor: the request headers
    (from which [get_session_info_from_headers] builds the dictionary), then
    the [user_ip], [request] and [backend] entries. *)
Record SessionInfo : Type := mkSessionInfo {
  info_headers : gmap string string;
  info_user_ip : string;
  info_request : Request;
  info_backend : string
}.

(** Modelled from the spec: the [Session] interface of [pywebio.session], of
    which the handler uses the constructor and four methods. A method is a
    transformer of the object's state; [closed] only observes it. *)
Class SessionOps : Type := {
  Session : Type;
  Target : Type;
  send_client_event : json -> Session -> Session;
  get_task_commands : Session -> list json * Session;
  closed : Session -> bool;
  close : Session -> Session
}.

(** The system the handler runs on: [fnmatch.fnmatch], the successive values
    of [time.time()] and the successive values of [random_str(24)]. *)
Class Oracle : Type := {
  fnmatch : string -> string -> bool;
  time_at : nat -> Z;
  random_at : nat -> string
}.

(** ** LRUDict *)

(** Modelled from the spec: [LRUDict] of [pywebio.utils], an ordered
    dictionary whose assignment moves the key to the most recently updated
    end. The list holds the items from the least to the most recently
    updated one. *)
Abbreviation LRUDict := (list (string * Z)).

Definition lru_remove (k : string) (d : LRUDict) : LRUDict :=
  filter (fun kv => kv.1 ≠ k) d.

(** [d[k] = v] *)
Definition lru_setitem (k : string) (v : Z) (d : LRUDict) : LRUDict :=
  (lru_remove k d ++ [(k, v)])%list.

Fixpoint lru_get (k : string) (d : LRUDict) : option Z :=
  match d with
  | [] => None
  | kv :: rest => if decide (kv.1 = k) then Some kv.2 else lru_get k rest
  end.

(** [d.popitem(last=False)]; [None] where Python raises [KeyError]. *)
Definition lru_popitem_first (d : LRUDict) : option ((string * Z) * LRUDict) :=
  match d with
  | [] => None
  | kv :: rest => Some (kv, rest)
  end.

(** [d.move_to_end(k, last=False)]; an absent key (a [KeyError] in Python)
    leaves the dictionary as it is. *)
Definition lru_move_to_front (k : string) (d : LRUDict) : LRUDict :=
  match lru_get k d with
  | Some v => (k, v) :: lru_remove k d
  | None => d
  end.

(** [d.pop(k, None)] *)
Definition lru_pop (k : string) (d : LRUDict) : LRUDict := lru_remove k d.

Definition lru_keys (d : LRUDict) : list string := d.*1.
Definition lru_values (d : LRUDict) : list Z := d.*2.

(** ** The class-level state of HttpHandler *)

(** A call of a session method, on the object at a reference. *)
Inductive Call : Type :=
| CallSendClientEvent (r : nat) (event : json)
| CallGetTaskCommands (r : nat)
| CallClosed (r : nat)
| CallClose (r : nat).

Record World `{SessionOps} : Type := mkWorld {
  webio_sessions : gmap string nat;      (* _webio_sessions: id -> session object *)
  webio_expire : LRUDict;                (* _webio_expire: id -> last active timestamp *)
  last_check_session_expire_ts : Z;      (* _last_check_session_expire_ts *)
  objects : gmap nat Session;            (* the session objects, by reference *)
  calls : list Call;                     (* session method calls, oldest first *)
  ticks : nat;                           (* calls of time.time() so far *)
  draws : nat                            (* calls of random_str so far *)
}.

Definition DEFAULT_SESSION_EXPIRE_SECONDS : Z := 60.
Definition SESSIONS_CLEANUP_INTERVAL : Z := 20.
Definition WAIT_MS_ON_POST : Z := 100.

Section Model.
Context `{SO : SessionOps} `{OR : Oracle}.

(** The state of a process in which no request was handled yet. *)
Definition initial_world : World :=
  {| webio_sessions := ∅; webio_expire := []; last_check_session_expire_ts := 0;
     objects := ∅; calls := []; ticks := 0; draws := 0 |}.

Definition with_sessions (m : gmap string nat) (w : World) : World :=
  {| webio_sessions := m; webio_expire := webio_expire w;
     last_check_session_expire_ts := last_check_session_expire_ts w;
     objects := objects w; calls := calls w; ticks := ticks w; draws := draws w |}.

Definition with_expire (d : LRUDict) (w : World) : World :=
  {| webio_sessions := webio_sessions w; webio_expire := d;
     last_check_session_expire_ts := last_check_session_expire_ts w;
     objects := objects w; calls := calls w; ticks := ticks w; draws := draws w |}.

Definition with_objects (objs : gmap nat Session) (w : World) : World :=
  {| webio_sessions := webio_sessions w; webio_expire := webio_expire w;
     last_check_session_expire_ts := last_check_session_expire_ts w;
     objects := objs; calls := calls w; ticks := ticks w; draws := draws w |}.

Definition with_last_check (t : Z) (w : World) : World :=
  {| webio_sessions := webio_sessions w; webio_expire := webio_expire w;
     last_check_session_expire_ts := t;
     objects := objects w; calls := calls w; ticks := ticks w; draws := draws w |}.

(** [time.time()] *)
Definition time_time (w : World) : Z * World :=
  (time_at (ticks w),
   {| webio_sessions := webio_sessions w; webio_expire := webio_expire w;
      last_check_session_expire_ts := last_check_session_expire_ts w;
      objects := objects w; calls := calls w; ticks := S (ticks w); draws := draws w |}).

(** [random_str(24)] *)
Definition random_str (w : World) : string * World :=
  (random_at (draws w),
   {| webio_sessions := webio_sessions w; webio_expire := webio_expire w;
      last_check_session_expire_ts := last_check_session_expire_ts w;
      objects := objects w; calls := calls w; ticks := ticks w; draws := S (draws w) |}).

(** Run a method on the object at [r] and log the call. A reference to no
    object (there is none in a world the handler produced) only logs. *)
Definition invoke (c : Call) (r : nat) (f : Session -> Session) (w : World) : World :=
  {| webio_sessions := webio_sessions w; webio_expire := webio_expire w;
     last_check_session_expire_ts := last_check_session_expire_ts w;
     objects := alter f r (objects w); calls := calls w ++ [c];
     ticks := ticks w; draws := draws w |}.

(** A fresh reference for a new object. *)
Definition fresh_ref (w : World) : nat := fresh (dom (objects w)).

(** [self.session_cls(self.target, session_info=session_info)] *)
Definition construct (s : Session) (w : World) : nat * World :=
  let r := fresh_ref w in
  (r,
   {| webio_sessions := webio_sessions w; webio_expire := webio_expire w;
      last_check_session_expire_ts := last_check_session_expire_ts w;
      objects := <[r := s]> (objects w); calls := calls w;
      ticks := ticks w; draws := draws w |}).

(** [session.send_client_event(event)] *)
Definition call_send_client_event (r : nat) (event : json) (w : World) : World :=
  invoke (CallSendClientEvent r event) r (send_client_event event) w.

(** [session.get_task_commands()] *)
Definition call_get_task_commands (r : nat) (w : World) : list json * World :=
  (match objects w !! r with
   | Some s => (get_task_commands s).1
   | None => []
   end,
   invoke (CallGetTaskCommands r) r (fun s => (get_task_commands s).2) w).

(** [session.closed()] *)
Definition call_closed (r : nat) (w : World) : bool * World :=
  (match objects w !! r with
   | Some s => closed s
   | None => false
   end,
   invoke (CallClosed r) r (fun s => s) w).

(** [session.close()] *)
Definition call_close (r : nat) (w : World) : World :=
  invoke (CallClose r) r close w.

(** The handler object: what [__init__] stores on [self]. *)
Record HttpHandler : Type := mkHttpHandler {
  target : Target;
  session_cls : Target -> SessionInfo -> Session;
  check_origin : string -> bool;
  session_expire_seconds : Z;
  session_cleanup_interval : Z
}.

(** [HttpHandler.__init__] *)
Definition init (tgt : Target) (cls : Target -> SessionInfo -> Session)
    (expire_seconds cleanup_interval : option Z)
    (allowed_origins : option (list string))
    (check : option (string -> bool)) : HttpHandler :=
  {| target := tgt;
     session_cls := cls;
     check_origin :=
       match check with
       | Some p => p
       | None => fun origin =>
           existsb (fun patten => fnmatch origin patten)
                   (match allowed_origins with Some l => l | None => [] end)
       end;
     session_expire_seconds := py_or expire_seconds DEFAULT_SESSION_EXPIRE_SECONDS;
     session_cleanup_interval := py_or cleanup_interval SESSIONS_CLEANUP_INTERVAL |}.

(** The end of the loop body of [_remove_expired_sessions], for an entry
    that expired: close the session and drop it from the registry ([if
    session:] holds of every session object, none being falsy). The entry
    has already left the index ([popitem]). *)
Definition clean_session (sid : string) (w : World) : World :=
  match webio_sessions w !! sid with
  | Some r => with_sessions (delete sid (webio_sessions w)) (call_close r w)
  | None => w
  end.

(** The [while] loop of [_remove_expired_sessions]; each turn pops an
    entry, so [fuel] turns are enough when [fuel] is the size of the index. *)
Fixpoint expire_loop (fuel : nat) (expire_seconds : Z) (w : World) : World :=
  match fuel with
  | O => w
  | S fuel' =>
      match lru_popitem_first (webio_expire w) with
      | None => w
      | Some ((sid, active_ts), rest) =>
          let w1 := with_expire rest w in
          let '(now, w2) := time_time w1 in
          if now - active_ts <? expire_seconds then
            with_expire
              (lru_move_to_front sid (lru_setitem sid active_ts (webio_expire w2))) w2
          else
            expire_loop fuel' expire_seconds (clean_session sid w2)
      end
  end.

(** [HttpHandler._remove_expired_sessions] *)
Definition _remove_expired_sessions (expire_seconds : Z) (w : World) : World :=
  expire_loop (length (webio_expire w)) expire_seconds w.

(** [HttpHandler._remove_webio_session] *)
Definition _remove_webio_session (sid : string) (w : World) : World :=
  with_expire (lru_pop sid (webio_expire w))
    (with_sessions (delete sid (webio_sessions w)) w).

(** [context.request_headers().get('Origin', '')] *)
Definition request_origin (req : Request) : string :=
  default "" (request_headers req !! "Origin").

(** [HttpHandler._process_cors]; [str(1440 * 60)] is ["86400"]. *)
Definition _process_cors (self : HttpHandler) (req : Request) (c : Response) : Response :=
  let origin := request_origin req in
  if check_origin self origin then
    set_header "Access-Control-Max-Age" "86400"
      (set_header "Access-Control-Expose-Headers" "webio-session-id"
        (set_header "Access-Control-Allow-Headers" "content-type, webio-session-id"
          (set_header "Access-Control-Allow-Methods" "GET, POST"
            (set_header "Access-Control-Allow-Origin" origin c))))
  else c.

(** The five headers [_process_cors] sets for an origin it allows. *)
Definition cors_headers (origin : string) : list (string * string) :=
  [("Access-Control-Allow-Origin", origin);
   ("Access-Control-Allow-Methods", "GET, POST");
   ("Access-Control-Allow-Headers", "content-type, webio-session-id");
   ("Access-Control-Expose-Headers", "webio-session-id");
   ("Access-Control-Max-Age", "86400")].

(** Lines 181-184 of [handle_request]: clean up at intervals. *)
Definition clean_up_at_intervals (self : HttpHandler) (w : World) : World :=
  let '(t_now, w) := time_time w in
  if t_now - last_check_session_expire_ts w >? session_cleanup_interval self then
    let '(t_check, w) := time_time w in
    _remove_expired_sessions (session_expire_seconds self) (with_last_check t_check w)
  else w.

(** Lines 188-189 of [handle_request]: forget a session seen closed. *)
Definition remove_if_closed (sid : string) (r : nat) (w : World) : World :=
  let '(is_closed, w) := call_closed r w in
  if is_closed then _remove_webio_session sid w else w.

(** Lines 173-191 of [handle_request]: the request addresses the session
    object [r] registered (or just created) under [sid]. [time.sleep] has no
    effect on the state; the time it takes shows in the next clock reading. *)
Definition serve_session (self : HttpHandler) (req : Request) (c : Response)
    (sid : string) (r : nat) (w : World) : Response * World :=
  let w :=
    if String.eqb (request_method req) "POST" then
      match request_json req with
      | Some event => call_send_client_event r event w
      | None => w
      end
    else w in
  let '(t_active, w) := time_time w in
  let w := with_expire (lru_setitem sid t_active (webio_expire w)) w in
  let w := clean_up_at_intervals self w in
  let '(commands, w) := call_get_task_commands r w in
  let c := set_content (JArr commands) true c in
  (c, remove_if_closed sid r w).

(** [HttpHandler.handle_request] *)
Definition handle_request (self : HttpHandler) (req : Request) (w : World)
    : Response * World :=
  let c := new_response in
  if String.eqb (request_method req) "OPTIONS" then
    (set_status 204 (_process_cors self req c), w)
  else
    let c :=
      if truthy_opt (request_headers req !! "Origin") then _process_cors self req c
      else c in
    if truthy_opt (request_url_parameter req "test") then
      (set_content (JStr "ok") false c, w)
    else if negb (truthy_opt (request_headers req !! "webio-session-id")) then
      if String.eqb (request_method req) "POST" then
        (set_status 403 c, w)
      else
        let '(webio_session_id, w) := random_str w in
        let c := set_header "webio-session-id" webio_session_id c in
        let session_info :=
          {| info_headers := request_headers req;
             info_user_ip := get_client_ip req;
             info_request := req;
             info_backend := backend_name req |} in
        let '(r, w) := construct (session_cls self (target self) session_info) w in
        let w := with_sessions (<[webio_session_id := r]> (webio_sessions w)) w in
        serve_session self req c webio_session_id r w
    else
      let webio_session_id := default "" (request_headers req !! "webio-session-id") in
      match webio_sessions w !! webio_session_id with
      | None => (set_content (JArr [close_session_command]) true c, w)
      | Some r => serve_session self req c webio_session_id r w
      end.


(** ** Properties of states *)

(** A dictionary holds a key once. *)
Definition lru_wf (d : LRUDict) : Prop := NoDup (lru_keys d).

(** Read from the least recently seen entry on, the timestamps never decrease. *)
Definition activity_ordered (d : LRUDict) : Prop := Sorted Z.le (lru_values d).

(** The clock never goes back. *)
Definition clock_monotone : Prop :=
  forall i j : nat, (i <= j)%nat -> time_at i <= time_at j.

(** The index of a state whose next clock reading is the [t]-th: it holds
    a key once, is ordered by activity, and no timestamp is ahead of the
    clock. *)
Definition index_inv (d : LRUDict) (t : nat) : Prop :=
  lru_wf d /\ activity_ordered d /\ Forall (fun ts => ts <= time_at t) (lru_values d).

(** How many entries a sweep started at the [t]-th clock reading pops for
    good: the entries met before the first one that is still fresh. *)
Fixpoint expired_count (expire_seconds : Z) (t : nat) (d : LRUDict) : nat :=
  match d with
  | [] => O
  | (_, active_ts) :: rest =>
      if time_at t - active_ts <? expire_seconds then O
      else S (expired_count expire_seconds (S t) rest)
  end.

(** What may happen to the class-level state: a request is handled by some
    handler, one of the two class methods is called, or the tasks behind the
    session objects move on. *)
Inductive step : World -> World -> Prop :=
| step_request (self : HttpHandler) (req : Request) (w : World) :
    step w (handle_request self req w).2
| step_sweep (expire_seconds : Z) (w : World) :
    step w (_remove_expired_sessions expire_seconds w)
| step_remove (sid : string) (w : World) :
    step w (_remove_webio_session sid w)
| step_tasks (objs : gmap nat Session) (w : World) :
    dom objs = dom (objects w) -> step w (with_objects objs w).

Definition reachable (w : World) : Prop := rtc step initial_world w.

(** ** Further properties of states *)

(** Lines 143-144 of [handle_request]: the response of a request that is
    no preflight, once the CORS headers are set. *)
Definition begin_response (self : HttpHandler) (req : Request) : Response :=
  if truthy_opt (request_headers req !! "Origin") then _process_cors self req new_response
  else new_response.

(** The requests for which [handle_request] creates a session: no
    preflight, no probe, no session id, and not a [POST]. *)
Definition creates_session (req : Request) : bool :=
  negb (String.eqb (request_method req) "OPTIONS")
  && negb (truthy_opt (request_url_parameter req "test"))
  && negb (truthy_opt (request_headers req !! "webio-session-id"))
  && negb (String.eqb (request_method req) "POST").

(** The test of line 182, for a request served from the state [w]: the
    clock is read once for the activity timestamp, then for the test. *)
Definition sweep_due (self : HttpHandler) (w : World) : bool :=
  time_at (S (ticks w)) - last_check_session_expire_ts w >? session_cleanup_interval self.

(** The session map and the activity index hold the same ids, each once. *)
Definition registry_consistent (w : World) : Prop :=
  lru_wf (webio_expire w)
  /\ forall sid, is_Some (webio_sessions w !! sid) <-> sid ∈ lru_keys (webio_expire w).

(** Every registered id is a value [random_str] returned. *)
Definition ids_minted (w : World) : Prop :=
  forall sid, is_Some (webio_sessions w !! sid) ->
    exists k, (k < draws w)%nat /\ sid = random_at k.

(** Every registered handle is an object of the store, and no two ids
    share one. *)
Definition handles_distinct (w : World) : Prop :=
  (forall sid r, webio_sessions w !! sid = Some r -> is_Some (objects w !! r))
  /\ (forall sid1 sid2 r,
        webio_sessions w !! sid1 = Some r -> webio_sessions w !! sid2 = Some r ->
        sid1 = sid2).

(** A [close()] on the handle of an id registered in [m]. *)
Definition closes_registered (m : gmap string nat) (c : Call) : Prop :=
  exists sid r, c = CallClose r /\ m !! sid = Some r.

(** The state of the session object [s] a request is served from, once the
    client event of a [POST] is delivered. *)
Definition deliver (req : Request) (s : Session) : Session :=
  if String.eqb (request_method req) "POST" then
    match request_json req with
    | Some event => send_client_event event s
    | None => s
    end
  else s.

(** The call that delivery logs, if any. *)
Definition delivery_calls (req : Request) (r : nat) : list Call :=
  if String.eqb (request_method req) "POST" then
    match request_json req with
    | Some event => [CallSendClientEvent r event]
    | None => []
    end
  else [].


End Model.

(** ** A small instance, for examples *)

Module Demo.

(** A session that queues what it is sent and hands it back as commands. *)
Record EchoSession : Type := mkEcho {
  echo_pending : list json;
  echo_closed : bool
}.

Definition echo_ops : SessionOps :=
  {| Session := EchoSession;
     Target := unit;
     send_client_event := fun ev s =>
       {| echo_pending := echo_pending s ++ [ev]; echo_closed := echo_closed s |};
     get_task_commands := fun s =>
       (echo_pending s, {| echo_pending := []; echo_closed := echo_closed s |});
     closed := echo_closed;
     close := fun s => {| echo_pending := echo_pending s; echo_closed := true |} |}.

(** A clock that reads 0 twice and 1000 from then on; ids [sid-0], [sid-1],
    then [sid-2]; patterns are literal, or the lone star. *)
Definition demo_oracle : Oracle :=
  {| fnmatch := fun origin patten => String.eqb patten "*" || String.eqb origin patten;
     time_at := fun k => if (k <? 2)%nat then 0 else 1000;
     random_at := fun k =>
       match k with O => "sid-0" | S O => "sid-1" | _ => "sid-2" end |}.

Definition open_session (target : unit) (info : SessionInfo) : EchoSession :=
  {| echo_pending := []; echo_closed := false |}.

Definition handler : @HttpHandler echo_ops :=
  @init echo_ops demo_oracle tt open_session None None None None.

Definition request (method : string) (headers : list (string * string))
    (test : option string) (body : option json) : Request :=
  {| request_method := method;
     request_headers := list_to_map headers;
     request_url_parameter := fun name => if String.eqb name "test" then test else None;
     request_json := body;
     get_client_ip := "127.0.0.1";
     backend_name := "flask" |}.

Definition world0 : @World echo_ops := @initial_world echo_ops.

Definition handle (h : @HttpHandler echo_ops) (req : Request) (w : @World echo_ops)
    : Response * @World echo_ops :=
  @handle_request echo_ops demo_oracle h req w.

Definition get_new : Request := request "GET" [] None None.
Definition get_sid0 : Request := request "GET" [("webio-session-id", "sid-0")] None None.
Definition get_unknown : Request := request "GET" [("webio-session-id", "nobody")] None None.
Definition post_plain : Request := request "POST" [] None (Some (JStr "click")).
Definition post_probe : Request := request "POST" [] (Some "1") None.

(** The state after a first [GET] without session id, at time 0: the
    session [sid-0] is registered, at reference 0, and last seen at 0. *)
Definition world1 : @World echo_ops := (handle handler get_new world0).2.

(** The same state once the task of [sid-0] has finished. *)
Definition world1_done : @World echo_ops :=
  @with_objects echo_ops
    {[ O := {| echo_pending := [JStr "bye"]; echo_closed := true |} ]} world1.

(** The state after a second request, a [GET] bearing [sid-0], at time
    1000: the sweep ran and found [sid-0] fresh. *)
Definition world2 : @World echo_ops := (handle handler get_sid0 world1).2.

Definition post_sid0 : Request :=
  request "POST" [("webio-session-id", "sid-0")] None (Some (JStr "click")).
Definition options_any : Request :=
  request "OPTIONS" [("Origin", "https://a.example.com"); ("webio-session-id", "sid-0")]
          (Some "1") None.
Definition probe_sid0 : Request :=
  request "DELETE" [("webio-session-id", "sid-0")] (Some "1") None.

(** A handler that allows every origin. *)
Definition handler_open : @HttpHandler echo_ops :=
  @init echo_ops demo_oracle tt open_session None None (Some ["*"]) None.

End Demo.

(** * Properties *)

Section Facts.
Context `{SO : SessionOps} `{OR : Oracle}.

(** ** The ordered dictionary *)

Lemma lru_remove_absent (k : string) (d : LRUDict) :
  k ∉ lru_keys (lru_remove k d).
Proof.
  unfold lru_keys, lru_remove. intros Hin.
  apply list_elem_of_fmap in Hin as [[k' v] [-> Hin]].
  apply list_elem_of_filter in Hin as [Hne _]. by apply Hne.
Qed.

Lemma lru_remove_id (k : string) (d : LRUDict) :
  k ∉ lru_keys d -> lru_remove k d = d.
Proof.
  unfold lru_keys, lru_remove. induction d as [|[k' v] d IH]; [done|].
  rewrite fmap_cons, not_elem_of_cons. intros [Hne Hnin]. simpl in Hne.
  rewrite filter_cons_True by (simpl; congruence).
  by rewrite IH.
Qed.

Lemma lru_remove_idem (k : string) (d : LRUDict) :
  lru_remove k (lru_remove k d) = lru_remove k d.
Proof. apply lru_remove_id, lru_remove_absent. Qed.

Lemma lru_remove_sublist (k : string) (d : LRUDict) :
  lru_remove k d `sublist_of` d.
Proof. apply sublist_filter. Qed.

Lemma lru_keys_remove_other (k k' : string) (d : LRUDict) :
  k' ≠ k -> k' ∈ lru_keys (lru_remove k d) <-> k' ∈ lru_keys d.
Proof.
  intros Hne. unfold lru_keys, lru_remove. rewrite !list_elem_of_fmap. split.
  - intros [kv [-> Hin]]. apply list_elem_of_filter in Hin as [_ Hin]. eauto.
  - intros [kv [-> Hin]]. exists kv. split; [done|].
    apply list_elem_of_filter. split; [by simpl|done].
Qed.

Lemma lru_wf_remove (k : string) (d : LRUDict) :
  lru_wf d -> lru_wf (lru_remove k d).
Proof.
  unfold lru_wf, lru_keys. intros Hd.
  eapply sublist_NoDup; [exact Hd|]. apply fmap_sublist, lru_remove_sublist.
Qed.

Lemma lru_wf_setitem (k : string) (v : Z) (d : LRUDict) :
  lru_wf d -> lru_wf (lru_setitem k v d).
Proof.
  intros Hd. unfold lru_wf, lru_setitem, lru_keys. rewrite fmap_app.
  apply NoDup_app. split; [by apply lru_wf_remove|]. split.
  - intros x Hx Hx'. simpl in Hx'. apply list_elem_of_singleton in Hx' as ->.
    by apply (lru_remove_absent k d).
  - simpl. apply NoDup_singleton.
Qed.

Lemma lru_get_absent (k : string) (d : LRUDict) :
  k ∉ lru_keys d -> lru_get k d = None.
Proof.
  unfold lru_keys. induction d as [|[k' v] d IH]; [done|].
  rewrite fmap_cons, not_elem_of_cons. intros [Hne Hnin]. simpl in *.
  rewrite decide_False by congruence. by apply IH.
Qed.

(** Popping the first entry, assigning it again and moving it to the front
    restores the dictionary. *)
Lemma lru_requeue (sid : string) (ts : Z) (rest : LRUDict) :
  lru_wf ((sid, ts) :: rest) ->
  lru_move_to_front sid (lru_setitem sid ts rest) = (sid, ts) :: rest.
Proof.
  unfold lru_wf, lru_keys. rewrite fmap_cons, NoDup_cons. simpl. intros [Hnin _].
  unfold lru_setitem. rewrite (lru_remove_id sid rest Hnin).
  unfold lru_move_to_front.
  assert (Hget : lru_get sid (rest ++ [(sid, ts)]) = Some ts).
  { clear -Hnin. induction rest as [|[k' v] rest IH]; simpl.
    - by rewrite decide_True.
    - rewrite fmap_cons, not_elem_of_cons in Hnin. destruct Hnin as [Hne Hnin].
      simpl in Hne. rewrite decide_False by congruence. by apply IH. }
  rewrite Hget. f_equal.
  unfold lru_remove. rewrite filter_app. simpl.
  rewrite filter_cons_False by (simpl; intros H; by apply H).
  rewrite filter_nil, app_nil_r. by apply (lru_remove_id sid rest).
Qed.

(** ** Handler construction *)


(** ** Origin policy *)

Lemma process_cors_frame (self : HttpHandler) (req : Request) (c : Response) :
  resp_headers (_process_cors self req c)
  = resp_headers c ++
    (if check_origin self (request_origin req)
     then cors_headers (request_origin req) else [])
  /\ resp_status (_process_cors self req c) = resp_status c
  /\ resp_content (_process_cors self req c) = resp_content c.
Proof.
  unfold _process_cors. destruct (check_origin self (request_origin req)); simpl.
  - repeat split. by rewrite <- !app_assoc.
  - by rewrite app_nil_r.
Qed.

(** C7: with a predicate configured the verdict is the predicate's and the
    pattern list is ignored; without one the verdict is true exactly when
    the origin matches one of the configured patterns; with neither, every
    origin is rejected; and [_process_cors] adds the five CORS headers,
    the first echoing the origin, exactly when the verdict is true. *)
Theorem origin_policy (tgt : Target) (cls : Target -> SessionInfo -> Session)
    (expire interval : option Z) (origins : option (list string))
    (pred : string -> bool) (origin : string)
    (self : HttpHandler) (req : Request) (c : Response) :
  check_origin (init tgt cls expire interval origins (Some pred)) origin = pred origin
  /\ (check_origin (init tgt cls expire interval origins None) origin = true
      <-> exists patten, patten ∈ default [] origins /\ fnmatch origin patten = true)
  /\ check_origin (init tgt cls expire interval None None) origin = false
  /\ resp_headers (_process_cors self req c)
     = resp_headers c ++
       (if check_origin self (request_origin req)
        then cors_headers (request_origin req) else [])
  /\ resp_status (_process_cors self req c) = resp_status c
  /\ resp_content (_process_cors self req c) = resp_content c.
Proof.
  split; [reflexivity|]. split.
  { simpl. destruct origins as [l|]; simpl.
    - rewrite existsb_exists. split.
      + intros [p [Hin Hm]]. exists p. by rewrite list_elem_of_In.
      + intros [p [Hin Hm]]. exists p. by rewrite <- list_elem_of_In.
    - split; [done|]. intros [p [Hin _]]. by apply elem_of_nil in Hin. }
  split; [reflexivity|]. apply process_cors_frame.
Qed.

(** ** Eviction *)

Lemma remove_webio_session_absent (sid : string) (w : World) :
  webio_sessions (_remove_webio_session sid w) !! sid = None
  /\ sid ∉ lru_keys (webio_expire (_remove_webio_session sid w)).
Proof.
  split; simpl; [apply lookup_delete_eq | apply lru_remove_absent].
Qed.

(** C9: evicting an id twice leaves the session map and the activity index
    (the whole state) as evicting it once does, the id then being absent
    from both; and evicting an id that is in neither changes nothing. No
    call can fail: [pop(sid, None)] is total. *)
Theorem remove_webio_session_idempotent (sid : string) (w : World) :
  _remove_webio_session sid (_remove_webio_session sid w) = _remove_webio_session sid w
  /\ webio_sessions (_remove_webio_session sid w) !! sid = None
  /\ (sid ∉ lru_keys (webio_expire (_remove_webio_session sid w)))
  /\ (webio_sessions w !! sid = None -> sid ∉ lru_keys (webio_expire w) ->
      _remove_webio_session sid w = w).
Proof.
  split; [|split; [|split]].
  - unfold _remove_webio_session, with_expire, with_sessions, lru_pop. simpl.
    by rewrite delete_delete_eq, lru_remove_idem.
  - apply remove_webio_session_absent.
  - apply remove_webio_session_absent.
  - intros Hs He. destruct w as [m d t o cs tk dr]. simpl in *.
    unfold _remove_webio_session, with_expire, with_sessions, lru_pop. simpl.
    by rewrite delete_id, lru_remove_id.
Qed.

(** ** Requests that end early *)

(** C4: a request that is neither a preflight nor a probe and carries a
    non-empty session id the session map does not hold is answered with
    status 200 and the JSON body [[{"command": "close_session"}]]; the
    state is left exactly as it was: no touch, no sweep, no creation, no
    removal, no call of a session method. *)
Theorem unknown_session_closes (self : HttpHandler) (req : Request) (w : World)
    (sid : string) :
  request_method req <> "OPTIONS" ->
  truthy_opt (request_url_parameter req "test") = false ->
  request_headers req !! "webio-session-id" = Some sid ->
  sid <> "" ->
  webio_sessions w !! sid = None ->
  (handle_request self req w).2 = w
  /\ resp_status (handle_request self req w).1 = 200
  /\ resp_content (handle_request self req w).1
     = Some (JArr [JObj [("command", JStr "close_session")]], true).
Proof.
  intros Hopt Htest Hsid Hne Hnone. unfold handle_request.
  apply String.eqb_neq in Hopt. rewrite Hopt, Htest, Hsid. simpl.
  assert (Ht : truthy sid = true) by (destruct sid; done).
  rewrite Ht. simpl. rewrite Hnone. simpl.
  repeat split.
  destruct (truthy_opt (request_headers req !! "Origin")); [|done].
  apply process_cors_frame.
Qed.

(** C1, amended: a [POST] whose headers lack a non-empty [webio-session-id]
    never changes the state (no session is created, neither the session
    map nor the activity index gains an entry); it is answered 403 with no
    body unless it is a liveness probe (a non-empty [test] URL parameter),
    which is answered [ok] with status 200 before the session id is looked
    at. *)
Theorem post_without_session_id (self : HttpHandler) (req : Request) (w : World) :
  request_method req = "POST" ->
  truthy_opt (request_headers req !! "webio-session-id") = false ->
  (handle_request self req w).2 = w
  /\ (truthy_opt (request_url_parameter req "test") = false ->
      resp_status (handle_request self req w).1 = 403
      /\ resp_content (handle_request self req w).1 = None)
  /\ (truthy_opt (request_url_parameter req "test") = true ->
      resp_status (handle_request self req w).1 = 200
      /\ resp_content (handle_request self req w).1 = Some (JStr "ok", false)).
Proof.
  intros Hpost Hsid. unfold handle_request. rewrite Hpost, Hsid. simpl.
  destruct (truthy_opt (request_url_parameter req "test")); simpl.
  - split; [done|]. split; [done|]. intros _. split; [|done].
    destruct (truthy_opt (request_headers req !! "Origin")); [|done].
    apply process_cors_frame.
  - split; [done|]. split; [|done]. intros _. split; [done|].
    destruct (truthy_opt (request_headers req !! "Origin")); [|done].
    apply process_cors_frame.
Qed.

(** ** Requests served from a session *)

Lemma calls_remove_if_closed (sid : string) (r : nat) (w : World) :
  calls (remove_if_closed sid r w) = calls w ++ [CallClosed r].
Proof.
  unfold remove_if_closed, call_closed.
  by destruct (match objects w !! r with Some s => closed s | None => false end).
Qed.

Lemma ticks_remove_if_closed (sid : string) (r : nat) (w : World) :
  ticks (remove_if_closed sid r w) = ticks w.
Proof.
  unfold remove_if_closed, call_closed.
  by destruct (match objects w !! r with Some s => closed s | None => false end).
Qed.




(** ** The expiration sweep *)

Lemma clean_session_fields (sid : string) (w : World) :
  webio_expire (clean_session sid w) = webio_expire w
  /\ ticks (clean_session sid w) = ticks w
  /\ draws (clean_session sid w) = draws w
  /\ last_check_session_expire_ts (clean_session sid w) = last_check_session_expire_ts w
  /\ webio_sessions (clean_session sid w) = delete sid (webio_sessions w)
  /\ calls (clean_session sid w)
     = calls w ++ match webio_sessions w !! sid with
                  | Some r => [CallClose r]
                  | None => []
                  end
  /\ objects (clean_session sid w)
     = match webio_sessions w !! sid with
       | Some r => alter close r (objects w)
       | None => objects w
       end.
Proof.
  unfold clean_session. destruct (webio_sessions w !! sid) as [r|] eqn:Hs; simpl.
  - done.
  - by rewrite delete_id, app_nil_r.
Qed.

Lemma expire_loop_nil (fuel : nat) (expire_seconds : Z) (w : World) :
  webio_expire w = [] -> expire_loop fuel expire_seconds w = w.
Proof. intros Hd. destruct fuel; simpl; [done|]. by rewrite Hd. Qed.

Lemma expire_loop_fresh (fuel : nat) (expire_seconds : Z) (w : World)
    (sid : string) (ts : Z) (rest : LRUDict) :
  webio_expire w = (sid, ts) :: rest ->
  lru_wf (webio_expire w) ->
  time_at (ticks w) - ts < expire_seconds ->
  expire_loop (S fuel) expire_seconds w = (time_time w).2.
Proof.
  intros Hd Hwf Hlt. simpl. rewrite Hd. simpl.
  apply Z.ltb_lt in Hlt. rewrite Hlt.
  rewrite Hd in Hwf. rewrite (lru_requeue sid ts rest Hwf).
  destruct w; simpl in *. by subst.
Qed.

Lemma expire_loop_expired (fuel : nat) (expire_seconds : Z) (w : World)
    (sid : string) (ts : Z) (rest : LRUDict) :
  webio_expire w = (sid, ts) :: rest ->
  expire_seconds <= time_at (ticks w) - ts ->
  expire_loop (S fuel) expire_seconds w
  = expire_loop fuel expire_seconds
      (clean_session sid (time_time (with_expire rest w)).2).
Proof.
  intros Hd Hge. simpl. rewrite Hd. simpl.
  apply Z.ltb_ge in Hge. by rewrite Hge.
Qed.

Lemma expired_count_fresh (expire_seconds : Z) (t : nat) (sid : string) (ts : Z)
    (rest : LRUDict) :
  time_at t - ts < expire_seconds ->
  expired_count expire_seconds t ((sid, ts) :: rest) = O.
Proof. intros H. apply Z.ltb_lt in H. simpl. by rewrite H. Qed.

Lemma expired_count_expired (expire_seconds : Z) (t : nat) (sid : string) (ts : Z)
    (rest : LRUDict) :
  expire_seconds <= time_at t - ts ->
  expired_count expire_seconds t ((sid, ts) :: rest)
  = S (expired_count expire_seconds (S t) rest).
Proof. intros H. apply Z.ltb_ge in H. simpl. by rewrite H. Qed.

Lemma expired_count_le (expire_seconds : Z) (t : nat) (d : LRUDict) :
  (expired_count expire_seconds t d <= length d)%nat.
Proof.
  revert t. induction d as [|[sid ts] d IH]; intros t; simpl; [lia|].
  destruct (_ <? _); [lia|]. specialize (IH (S t)). lia.
Qed.

(** What a sweep with enough fuel does, in terms of the number of entries
    it pops for good: the sessions it closes are the handles registered
    under those ids. *)
Lemma expire_loop_spec (fuel : nat) (expire_seconds : Z) (w : World) :
  lru_wf (webio_expire w) ->
  (length (webio_expire w) <= fuel)%nat ->
  let n := expired_count expire_seconds (ticks w) (webio_expire w) in
  let w' := expire_loop fuel expire_seconds w in
  webio_expire w' = drop n (webio_expire w)
  /\ (forall k, webio_sessions w' !! k
                = if decide (k ∈ take n (lru_keys (webio_expire w)))
                  then None else webio_sessions w !! k)
  /\ ticks w' = (ticks w + min (S n) (length (webio_expire w)))%nat
  /\ draws w' = draws w
  /\ last_check_session_expire_ts w' = last_check_session_expire_ts w
  /\ calls w' = calls w ++ omap (fun k => CallClose <$> webio_sessions w !! k)
                                (take n (lru_keys (webio_expire w))).
Proof.
  revert w. induction fuel as [|fuel IH]; intros w Hwf Hlen.
  { destruct (webio_expire w) as [|kv rest] eqn:Hd; [|simpl in Hlen; lia].
    simpl. rewrite Hd. simpl. rewrite app_nil_r. repeat split; try lia; try done;
      try (intros k; rewrite decide_False; [done|apply not_elem_of_nil]). }
  destruct (webio_expire w) as [|[sid ts] rest] eqn:Hd.
  { rewrite (expire_loop_nil _ _ _ Hd). simpl. rewrite Hd, app_nil_r.
    repeat split; try lia; try done;
      try (intros k; rewrite decide_False; [done|apply not_elem_of_nil]). }
  destruct (Z.ltb_spec (time_at (ticks w) - ts) expire_seconds) as [Hlt|Hge].
  - rewrite <- Hd in Hwf. rewrite (expire_loop_fresh _ _ _ _ _ _ Hd Hwf Hlt).
    cbv zeta. rewrite (expired_count_fresh _ _ _ _ _ Hlt).
    simpl. rewrite app_nil_r.
    repeat split; try lia; try done;
      try (intros k; rewrite decide_False; [done|apply not_elem_of_nil]).
  - rewrite (expire_loop_expired _ _ _ _ _ _ Hd Hge).
    set (w3 := clean_session sid (time_time (with_expire rest w)).2).
    destruct (clean_session_fields sid (time_time (with_expire rest w)).2)
      as (He & Ht & Hr & Hl & Hs & Hc & _).
    fold w3 in He, Ht, Hr, Hl, Hs, Hc. simpl in He, Ht, Hr, Hl, Hs, Hc.
    clearbody w3.
    assert (Hnodup := Hwf). unfold lru_wf, lru_keys in Hnodup.
    rewrite fmap_cons, NoDup_cons in Hnodup. simpl in Hnodup.
    destruct Hnodup as [Hnin Hrest].
    destruct (IH w3) as (IHe & IHs & IHt & IHr & IHl & IHc).
    { by rewrite He. }
    { rewrite He. simpl in Hlen. lia. }
    rewrite He, Ht in *.
    cbv zeta. rewrite (expired_count_expired _ _ _ _ _ Hge).
    set (n := expired_count expire_seconds (S (ticks w)) rest) in *.
    unfold lru_keys in *. rewrite fmap_cons, firstn_cons, skipn_cons.
    cbn [fst length].
    split; [exact IHe|]. split; [|split; [|split; [|split]]].
    + intros k. rewrite IHs, Hs.
      destruct (decide (k = sid)) as [->|Hne].
      * rewrite (decide_True (P := sid ∈ sid :: _)) by (apply elem_of_cons; by left).
        case_decide; [done|]. apply lookup_delete_eq.
      * rewrite lookup_delete_ne by done.
        case_decide as Hin.
        -- by rewrite decide_True by (apply elem_of_cons; by right).
        -- rewrite decide_False; [done|].
           rewrite elem_of_cons. intros [?|?]; done.
    + rewrite IHt. lia.
    + by rewrite IHr, Hr.
    + by rewrite IHl, Hl.
    + rewrite IHc, Hc, <- app_assoc. f_equal.
      assert (Hext : omap (fun k => CallClose <$> webio_sessions w3 !! k)
                          (take n rest.*1)
                   = omap (fun k => CallClose <$> webio_sessions w !! k)
                          (take n rest.*1)).
      { assert (Hsub : forall k, k ∈ take n rest.*1 -> k <> sid).
        { intros k Hk ->. apply Hnin. by apply (subseteq_take n rest.*1). }
        revert Hsub. generalize (take n rest.*1). intros l Hl'.
        induction l as [|k l IHlist]; [done|]. simpl.
        assert (Hk : webio_sessions w3 !! k = webio_sessions w !! k).
        { rewrite Hs. apply lookup_delete_ne, not_eq_sym, Hl'. by left. }
        unfold omap in IHlist.
        rewrite Hk, IHlist; [done|]. intros k' Hk'. apply Hl'. by right. }
      rewrite Hext. simpl.
      destruct (webio_sessions w !! sid); done.
Qed.


Lemma expire_loop_ticks (fuel : nat) (expire_seconds : Z) (w : World) :
  (ticks w <= ticks (expire_loop fuel expire_seconds w))%nat.
Proof.
  revert w. induction fuel as [|fuel IH]; intros w; simpl; [lia|].
  destruct (webio_expire w) as [|[sid ts] rest]; simpl; [lia|].
  destruct (_ <? _); simpl; [lia|].
  etransitivity; [|apply IH].
  rewrite (proj1 (proj2 (clean_session_fields _ _))). simpl. lia.
Qed.

(** What [_remove_expired_sessions] does: it pops the first [n] entries,
    [n] being [expired_count]; the ids popped leave the session map too,
    after a [close()] on their handle; nothing else changes but the clock. *)
Lemma sweep_outcome (expire_seconds : Z) (w : World) :
  lru_wf (webio_expire w) ->
  let n := expired_count expire_seconds (ticks w) (webio_expire w) in
  let w' := _remove_expired_sessions expire_seconds w in
  webio_expire w' = drop n (webio_expire w)
  /\ (forall sid, sid ∈ lru_keys (take n (webio_expire w)) ->
        (sid ∉ lru_keys (webio_expire w'))
        /\ webio_sessions w' !! sid = None
        /\ forall r, webio_sessions w !! sid = Some r ->
             CallClose r ∈ drop (length (calls w)) (calls w'))
  /\ (forall sid, sid ∉ lru_keys (take n (webio_expire w)) ->
        webio_sessions w' !! sid = webio_sessions w !! sid)
  /\ (ticks w <= ticks w')%nat
  /\ draws w' = draws w
  /\ last_check_session_expire_ts w' = last_check_session_expire_ts w.
Proof.
  intros Hwf. cbv zeta. unfold _remove_expired_sessions.
  destruct (expire_loop_spec (length (webio_expire w)) expire_seconds w Hwf (le_n _))
    as (He & Hs & Ht & Hr & Hl & Hc).
  set (n := expired_count expire_seconds (ticks w) (webio_expire w)) in *.
  set (w' := expire_loop (length (webio_expire w)) expire_seconds w) in *.
  clearbody w' n. unfold lru_keys in *. rewrite fmap_take.
  split; [exact He|]. split; [|split; [|split; [|split]]]; try done.
  - intros sid Hin. split; [|split].
    + rewrite He, fmap_drop. intros Hin'.
      unfold lru_wf, lru_keys in Hwf.
      rewrite <- (take_drop n (webio_expire w).*1) in Hwf.
      apply NoDup_app in Hwf as (_ & Hdisj & _). by apply (Hdisj sid).
    + by rewrite Hs, decide_True.
    + intros r Hr'. rewrite Hc, drop_app_length.
      apply list_elem_of_omap. exists sid. split; [done|]. by rewrite Hr'.
  - intros sid Hnin. by rewrite Hs, decide_False.
  - lia.
Qed.

(** ** Order of the activity index *)

Lemma strongly_sorted_sublist {A : Type} (R : relation A) (l1 l2 : list A) :
  l1 `sublist_of` l2 -> StronglySorted R l2 -> StronglySorted R l1.
Proof.
  induction 1 as [|x l1 l2 Hsub IH|x l1 l2 Hsub IH]; intros Hs.
  - constructor.
  - apply StronglySorted_cons in Hs as [Hall Hs].
    apply StronglySorted_cons. split; [|auto].
    rewrite Forall_forall in *. intros y Hy. apply Hall.
    eapply elem_of_sublist; eauto.
  - apply StronglySorted_cons in Hs as [_ Hs]. auto.
Qed.

Lemma activity_ordered_strong (d : LRUDict) :
  activity_ordered d <-> StronglySorted Z.le (lru_values d).
Proof.
  unfold activity_ordered. split.
  - apply Sorted_StronglySorted. intros x y z. lia.
  - apply StronglySorted_Sorted.
Qed.

Lemma index_inv_sublist (d d' : LRUDict) (t t' : nat) :
  clock_monotone ->
  d' `sublist_of` d -> (t <= t')%nat -> index_inv d t -> index_inv d' t'.
Proof.
  intros Hmono Hsub Hle (Hwf & Hord & Hall). split; [|split].
  - unfold lru_wf, lru_keys in *.
    eapply sublist_NoDup; [exact Hwf|]. by apply fmap_sublist.
  - apply activity_ordered_strong. apply activity_ordered_strong in Hord.
    eapply strongly_sorted_sublist; [|exact Hord].
    unfold lru_values. by apply fmap_sublist.
  - unfold lru_values in *. rewrite Forall_forall in *. intros ts Hts.
    etransitivity; [|apply (Hmono t t' Hle)]. apply Hall.
    eapply elem_of_sublist; [exact Hts|]. by apply fmap_sublist.
Qed.

(** Assigning the current time to a key keeps the index ordered. *)
Lemma index_inv_touch (sid : string) (d : LRUDict) (t : nat) :
  clock_monotone ->
  index_inv d t -> index_inv (lru_setitem sid (time_at t) d) (S t).
Proof.
  intros Hmono Hinv.
  assert (Hrem : index_inv (lru_remove sid d) t).
  { exact (index_inv_sublist d _ t t Hmono (lru_remove_sublist sid d) (le_n t) Hinv). }
  destruct Hinv as (Hwf & _ & _). destruct Hrem as (_ & Hord & Hall).
  split; [|split].
  - by apply lru_wf_setitem.
  - apply activity_ordered_strong. apply activity_ordered_strong in Hord.
    unfold lru_setitem, lru_values in *. rewrite fmap_app. simpl.
    apply StronglySorted_app_2; [|done|repeat constructor].
    intros x1 x2 Hx1 Hx2. apply list_elem_of_singleton in Hx2 as ->.
    rewrite Forall_forall in Hall. by apply Hall.
  - unfold lru_setitem, lru_values in *. rewrite fmap_app. simpl.
    apply Forall_app. split.
    + eapply Forall_impl; [exact Hall|]. intros ts Hts. simpl in Hts.
      etransitivity; [exact Hts|]. apply Hmono. lia.
    + constructor; [|constructor]. apply Hmono. lia.
Qed.

Lemma index_inv_sweep (expire_seconds : Z) (w : World) :
  clock_monotone ->
  index_inv (webio_expire w) (ticks w) ->
  index_inv (webio_expire (_remove_expired_sessions expire_seconds w))
            (ticks (_remove_expired_sessions expire_seconds w)).
Proof.
  intros Hmono Hinv.
  destruct (sweep_outcome expire_seconds w (proj1 Hinv)) as (He & _ & _ & Ht & _).
  rewrite He. eapply index_inv_sublist; [done|apply sublist_drop|exact Ht|done].
Qed.

Lemma index_inv_clean_up (self : HttpHandler) (w : World) :
  clock_monotone ->
  index_inv (webio_expire w) (ticks w) ->
  index_inv (webio_expire (clean_up_at_intervals self w))
            (ticks (clean_up_at_intervals self w)).
Proof.
  intros Hmono Hinv. unfold clean_up_at_intervals. simpl.
  destruct (_ >? _).
  - apply index_inv_sweep; [done|]. simpl.
    eapply index_inv_sublist; [done|reflexivity| |exact Hinv]. lia.
  - simpl. eapply index_inv_sublist; [done|reflexivity| |exact Hinv]. lia.
Qed.

Lemma index_inv_remove_if_closed (sid : string) (r : nat) (w : World) :
  clock_monotone ->
  index_inv (webio_expire w) (ticks w) ->
  index_inv (webio_expire (remove_if_closed sid r w))
            (ticks (remove_if_closed sid r w)).
Proof.
  intros Hmono Hinv. unfold remove_if_closed, call_closed.
  destruct (match objects w !! r with Some s => closed s | None => false end);
    simpl; [|done].
  eapply index_inv_sublist; [done|apply lru_remove_sublist|reflexivity|done].
Qed.

Lemma index_inv_serve_session (self : HttpHandler) (req : Request) (c : Response)
    (sid : string) (r : nat) (w : World) :
  clock_monotone ->
  index_inv (webio_expire w) (ticks w) ->
  index_inv (webio_expire (serve_session self req c sid r w).2)
            (ticks (serve_session self req c sid r w).2).
Proof.
  intros Hmono Hinv. unfold serve_session.
  set (w1 := if String.eqb (request_method req) "POST"
             then match request_json req with
                  | Some event => call_send_client_event r event w
                  | None => w
                  end
             else w).
  assert (H1 : webio_expire w1 = webio_expire w /\ ticks w1 = ticks w).
  { unfold w1. destruct (String.eqb _ _); [|done]. by destruct (request_json req). }
  destruct H1 as [He1 Ht1]. clearbody w1. simpl.
  apply index_inv_remove_if_closed; [done|]. simpl.
  apply index_inv_clean_up; [done|]. simpl.
  rewrite He1, Ht1. by apply index_inv_touch.
Qed.

(** The shape of [handle_request]: either the request ends early and the
    state is untouched, or it is served from a session, registered before
    or just now, starting from a state with the same index and clock. *)
Lemma handle_request_cases (self : HttpHandler) (req : Request) (w : World) :
  (handle_request self req w).2 = w
  \/ exists c sid r w0,
       handle_request self req w = serve_session self req c sid r w0
       /\ webio_expire w0 = webio_expire w
       /\ ticks w0 = ticks w
       /\ resp_status c = 200.
Proof.
  assert (Hc : resp_status
    (if truthy_opt (request_headers req !! "Origin")
     then _process_cors self req new_response else new_response) = 200).
  { destruct (truthy_opt (request_headers req !! "Origin")); [|done].
    apply process_cors_frame. }
  unfold handle_request.
  destruct (String.eqb (request_method req) "OPTIONS"); [by left|].
  cbv zeta.
  destruct (truthy_opt (request_url_parameter req "test")); [by left|].
  destruct (negb (truthy_opt (request_headers req !! "webio-session-id"))).
  - destruct (String.eqb (request_method req) "POST"); [by left|].
    right. unfold random_str, construct. cbv beta iota zeta.
    do 4 eexists. split; [reflexivity|]. simpl. by rewrite Hc.
  - destruct (webio_sessions w !! _) as [r|]; [|by left].
    right. do 4 eexists. split; [reflexivity|]. by rewrite Hc.
Qed.

Lemma index_inv_step (w w' : World) :
  clock_monotone ->
  step w w' ->
  index_inv (webio_expire w) (ticks w) ->
  index_inv (webio_expire w') (ticks w').
Proof.
  intros Hmono Hstep Hinv. destruct Hstep as [self req w|thr w|sid w|objs w Hdom].
  - destruct (handle_request_cases self req w)
      as [->|(c & sid & r & w0 & -> & He & Ht & _)]; [done|].
    apply index_inv_serve_session; [done|]. by rewrite He, Ht.
  - by apply index_inv_sweep.
  - simpl. eapply index_inv_sublist; [done|apply lru_remove_sublist|reflexivity|done].
  - done.
Qed.

Lemma index_inv_reachable (w : World) :
  clock_monotone -> reachable w -> index_inv (webio_expire w) (ticks w).
Proof.
  intros Hmono Hreach. unfold reachable in Hreach.
  revert w Hreach.
  apply (rtc_ind_r (fun w => index_inv (webio_expire w) (ticks w))).
  - simpl. split; [apply NoDup_nil_2|]. split; constructor.
  - intros w1 w2 _ Hstep IH. by eapply index_inv_step.
Qed.


(** ** Which entries a sweep pops *)

(** With a clock that stays at [now] during the sweep and an ordered index,
    the entries popped are the idle ones and the entries left are fresh. *)
Lemma expired_count_split (expire_seconds now : Z) (t : nat) (d : LRUDict) :
  (forall k, (t <= k)%nat -> time_at k = now) ->
  StronglySorted Z.le (lru_values d) ->
  let n := expired_count expire_seconds t d in
  Forall (fun kv => expire_seconds <= now - kv.2) (take n d)
  /\ Forall (fun kv => now - kv.2 < expire_seconds) (drop n d).
Proof.
  revert t. induction d as [|[sid ts] d IH]; intros t Hnow Hord.
  { split; constructor. }
  unfold lru_values in Hord. rewrite fmap_cons in Hord. simpl in Hord.
  apply StronglySorted_cons in Hord as [Hle Hord].
  cbv zeta. destruct (Z.ltb_spec (time_at t - ts) expire_seconds) as [Hlt|Hge].
  - rewrite (expired_count_fresh _ _ _ _ _ Hlt). simpl. split; [constructor|].
    rewrite (Hnow t (le_n t)) in Hlt. constructor; [done|].
    rewrite Forall_fmap in Hle. eapply Forall_impl; [exact Hle|].
    intros [k v] Hv. simpl in *. lia.
  - rewrite (expired_count_expired _ _ _ _ _ Hge). simpl.
    destruct (IH (S t)) as [Htake Hdrop]; [|done|].
    { intros k Hk. apply Hnow. lia. }
    split; [|done]. constructor; [|done].
    rewrite (Hnow t (le_n t)) in Hge. done.
Qed.

(** With a clock that never reads less than [lo] during the sweep and an
    ordered index, every entry idle for the threshold at [lo] is popped. *)
Lemma expired_count_covers (expire_seconds lo : Z) (t : nat) (d : LRUDict)
    (kv : string * Z) :
  (forall k, (t <= k)%nat -> lo <= time_at k) ->
  StronglySorted Z.le (lru_values d) ->
  kv ∈ d ->
  expire_seconds <= lo - kv.2 ->
  kv ∈ take (expired_count expire_seconds t d) d.
Proof.
  revert t. induction d as [|[sid ts] d IH]; intros t Hlo Hord Hin Hidle.
  { by apply elem_of_nil in Hin. }
  unfold lru_values in Hord. rewrite fmap_cons in Hord. simpl in Hord.
  apply StronglySorted_cons in Hord as [Hle Hord].
  assert (Hts : ts <= kv.2).
  { apply elem_of_cons in Hin as [->|Hin]; [simpl; lia|].
    rewrite Forall_fmap, Forall_forall in Hle. by apply (Hle kv). }
  specialize (Hlo t (le_n t)) as Ht.
  rewrite expired_count_expired by lia. simpl.
  apply elem_of_cons in Hin as [->|Hin]; [by left|]. right.
  apply IH; try done. intros k Hk. apply Hlo. lia.
Qed.

(** C5: the sweep looks at the least recently seen entry and reads the
    clock. An empty index ends it with nothing changed. An entry idle for
    less than the threshold ends it too: the entry is back at the least
    recently seen position and only the clock has advanced. Otherwise the
    entry is evicted (its handle, if registered, is closed and leaves the
    session map; the entry has left the index) and the sweep goes on with
    the entries that remain. Hence, for a sweep at time [now] over an
    activity-ordered index, the entries left are the entries idle for less
    than the threshold, and every id idle for the threshold or more is
    gone from the index and from the session map. *)
Theorem sweep_evicts_idle_entries (expire_seconds : Z) (w : World) :
  lru_wf (webio_expire w) ->
  (webio_expire w = [] -> _remove_expired_sessions expire_seconds w = w)
  /\ (forall sid ts rest,
        webio_expire w = (sid, ts) :: rest ->
        time_at (ticks w) - ts < expire_seconds ->
        _remove_expired_sessions expire_seconds w = (time_time w).2
        /\ webio_expire (_remove_expired_sessions expire_seconds w) = (sid, ts) :: rest)
  /\ (forall sid ts rest,
        webio_expire w = (sid, ts) :: rest ->
        expire_seconds <= time_at (ticks w) - ts ->
        let w1 := clean_session sid (time_time (with_expire rest w)).2 in
        _remove_expired_sessions expire_seconds w
        = _remove_expired_sessions expire_seconds w1
        /\ webio_expire w1 = rest
        /\ webio_sessions w1 = delete sid (webio_sessions w)
        /\ forall r, webio_sessions w !! sid = Some r ->
             calls w1 = calls w ++ [CallClose r]
             /\ objects w1 = alter close r (objects w))
  /\ (forall now,
        activity_ordered (webio_expire w) ->
        (forall k, (ticks w <= k)%nat -> time_at k = now) ->
        let w' := _remove_expired_sessions expire_seconds w in
        (forall sid ts, (sid, ts) ∈ webio_expire w' <->
                        (sid, ts) ∈ webio_expire w /\ now - ts < expire_seconds)
        /\ (forall sid ts, (sid, ts) ∈ webio_expire w ->
                           expire_seconds <= now - ts ->
                           (sid ∉ lru_keys (webio_expire w'))
                           /\ webio_sessions w' !! sid = None)).
Proof.
  intros Hwf. split; [|split; [|split]].
  - intros Hd. unfold _remove_expired_sessions. by apply expire_loop_nil.
  - intros sid ts rest Hd Hlt.
    assert (Heq : _remove_expired_sessions expire_seconds w = (time_time w).2).
    { unfold _remove_expired_sessions. rewrite Hd at 1. cbn [length].
      by apply (expire_loop_fresh _ _ _ sid ts rest). }
    rewrite Heq. by split.
  - intros sid ts rest Hd Hge. cbv zeta.
    set (w1 := clean_session sid (time_time (with_expire rest w)).2).
    destruct (clean_session_fields sid (time_time (with_expire rest w)).2)
      as (He & _ & _ & _ & Hs & Hc & Ho).
    fold w1 in He, Hs, Hc, Ho. simpl in He, Hs, Hc, Ho.
    split; [|split; [done|split; [done|]]].
    + unfold _remove_expired_sessions. rewrite He, Hd. cbn [length].
      by apply (expire_loop_expired _ _ _ sid ts rest).
    + intros r Hr. by rewrite Hc, Ho, Hr.
  - intros now Hord Hnow. cbv zeta.
    apply activity_ordered_strong in Hord.
    destruct (sweep_outcome expire_seconds w Hwf) as (He & Hgone & _).
    destruct (expired_count_split expire_seconds now (ticks w) (webio_expire w)
                Hnow Hord) as [Htake Hdrop].
    set (n := expired_count expire_seconds (ticks w) (webio_expire w)) in *.
    rewrite Forall_forall in Htake, Hdrop.
    split.
    + intros sid ts. rewrite He. split.
      * intros Hin. split; [by apply (subseteq_drop n)|]. by apply (Hdrop _ Hin).
      * intros [Hin Hlt].
        rewrite <- (take_drop n (webio_expire w)) in Hin.
        apply elem_of_app in Hin as [Hin|Hin]; [|done].
        specialize (Htake _ Hin). simpl in Htake. lia.
    + intros sid ts Hin Hidle.
      assert (Hpop : sid ∈ lru_keys (take n (webio_expire w))).
      { unfold lru_keys. apply list_elem_of_fmap. exists (sid, ts). split; [done|].
        apply (expired_count_covers expire_seconds now); try done.
        intros k Hk. rewrite (Hnow k Hk). lia. }
      destruct (Hgone sid Hpop) as (Hidx & Hmap & _). done.
Qed.

(** ** Destruction of sessions *)

(** C3, amended: a destruction removes the id from the session map and
    from the activity index together. The session seen closed after its
    commands were fetched is removed without any call of [close()]: the
    only call is the [closed()] that observed it, and no session object
    changes. The sweep does call [close()] on the handle of each id it
    evicts, and an id it leaves in the index keeps its entry in the
    session map. *)
Theorem destruction_removes_both (expire_seconds : Z) (sid : string) (r : nat)
    (w : World) :
  lru_wf (webio_expire w) ->
  ((call_closed r w).1 = true ->
   let w' := remove_if_closed sid r w in
   webio_sessions w' !! sid = None
   /\ (sid ∉ lru_keys (webio_expire w'))
   /\ calls w' = calls w ++ [CallClosed r]
   /\ objects w' = objects w)
  /\ (let w' := _remove_expired_sessions expire_seconds w in
      (sid ∈ lru_keys (webio_expire w) ->
       sid ∉ lru_keys (webio_expire w') ->
       webio_sessions w' !! sid = None
       /\ (webio_sessions w !! sid = Some r ->
           CallClose r ∈ drop (length (calls w)) (calls w')))
      /\ (sid ∈ lru_keys (webio_expire w') ->
          webio_sessions w' !! sid = webio_sessions w !! sid)).
Proof.
  intros Hwf. split.
  - intros Hclosed. cbv zeta. unfold remove_if_closed.
    unfold call_closed in *. simpl in Hclosed. rewrite Hclosed. simpl.
    split; [apply lookup_delete_eq|]. split; [apply lru_remove_absent|].
    split; [done|]. by apply alter_id.
  - cbv zeta.
    destruct (sweep_outcome expire_seconds w Hwf) as (He & Hgone & Hkept & _).
    set (n := expired_count expire_seconds (ticks w) (webio_expire w)) in *.
    assert (Hsplit : forall k, k ∈ lru_keys (webio_expire w) ->
              k ∈ lru_keys (take n (webio_expire w))
              \/ k ∈ lru_keys (webio_expire (_remove_expired_sessions expire_seconds w))).
    { intros k Hk. rewrite He. unfold lru_keys in *.
      rewrite <- (take_drop n (webio_expire w)), fmap_app in Hk.
      by apply elem_of_app in Hk. }
    split.
    + intros Hin Hout. destruct (Hsplit sid Hin) as [Hpop|Hstay]; [|done].
      destruct (Hgone sid Hpop) as (_ & Hmap & Hclose). split; [done|].
      apply Hclose.
    + intros Hstay. apply Hkept. intros Hpop.
      by destruct (Hgone sid Hpop) as (Hout & _).
Qed.

(** ** Expiration *)







End Facts.

(** * Further properties of the handler *)

Section Coverage.
Context `{SO : SessionOps} `{OR : Oracle}.

(** ** Keys of the ordered dictionary *)

Lemma lru_keys_remove (k k' : string) (d : LRUDict) :
  k' ∈ lru_keys (lru_remove k d) <-> k' <> k /\ k' ∈ lru_keys d.
Proof.
  split.
  - intros H. destruct (decide (k' = k)) as [->|Hne].
    + by apply lru_remove_absent in H.
    + split; [done|]. by apply lru_keys_remove_other in H.
  - intros [Hne H]. by apply lru_keys_remove_other.
Qed.

Lemma lru_keys_setitem (k : string) (v : Z) (k' : string) (d : LRUDict) :
  k' ∈ lru_keys (lru_setitem k v d) <-> k' = k \/ k' ∈ lru_keys d.
Proof.
  assert (H : k' ∈ lru_keys (lru_setitem k v d)
              <-> k' ∈ lru_keys (lru_remove k d) \/ k' = k).
  { unfold lru_setitem, lru_keys. rewrite fmap_app, elem_of_app. simpl.
    by rewrite list_elem_of_singleton. }
  rewrite H, lru_keys_remove. split.
  - intros [[_ Hin]|Heq]; auto.
  - intros [Heq|Hin]; [by right|].
    destruct (decide (k' = k)); [by right|by left].
Qed.

(** ** What a request leaves alone *)

Lemma expire_loop_fresh_any (fuel : nat) (expire_seconds : Z) (w : World)
    (sid : string) (ts : Z) (rest : LRUDict) :
  webio_expire w = (sid, ts) :: rest ->
  time_at (ticks w) - ts < expire_seconds ->
  expire_loop (S fuel) expire_seconds w
  = with_expire (lru_move_to_front sid (lru_setitem sid ts rest))
      (time_time (with_expire rest w)).2.
Proof.
  intros Hd Hlt. simpl. rewrite Hd. simpl.
  apply Z.ltb_lt in Hlt. by rewrite Hlt.
Qed.

Lemma expire_loop_frame (fuel : nat) (expire_seconds : Z) (w : World) :
  draws (expire_loop fuel expire_seconds w) = draws w
  /\ last_check_session_expire_ts (expire_loop fuel expire_seconds w)
     = last_check_session_expire_ts w
  /\ dom (objects (expire_loop fuel expire_seconds w)) = dom (objects w)
  /\ (forall k, webio_sessions (expire_loop fuel expire_seconds w) !! k = None
                \/ webio_sessions (expire_loop fuel expire_seconds w) !! k
                   = webio_sessions w !! k)
  /\ exists cl, calls (expire_loop fuel expire_seconds w) = calls w ++ cl
                /\ Forall (closes_registered (webio_sessions w)) cl.
Proof.
  revert w. induction fuel as [|fuel IH]; intros w.
  { simpl. split_and!; auto. exists []. by rewrite app_nil_r. }
  destruct (webio_expire w) as [|[sid ts] rest] eqn:Hd.
  { rewrite (expire_loop_nil _ _ _ Hd). split_and!; auto.
    exists []. by rewrite app_nil_r. }
  destruct (Z.ltb_spec (time_at (ticks w) - ts) expire_seconds) as [Hlt|Hge].
  - rewrite (expire_loop_fresh_any _ _ _ _ _ _ Hd Hlt). simpl. split_and!; auto.
    exists []. by rewrite app_nil_r.
  - rewrite (expire_loop_expired _ _ _ _ _ _ Hd Hge).
    set (w2 := (time_time (with_expire rest w)).2).
    destruct (clean_session_fields sid w2) as (_ & _ & Hr & Hl & Hs & Hc & Ho).
    destruct (IH (clean_session sid w2)) as (IHr & IHl & IHo & IHs & cl & IHc & IHcl).
    split_and!.
    + by rewrite IHr, Hr.
    + by rewrite IHl, Hl.
    + rewrite IHo, Ho. destruct (webio_sessions w2 !! sid); [apply dom_alter_L|done].
    + intros k. destruct (IHs k) as [-> | ->]; [by left|]. rewrite Hs.
      destruct (decide (k = sid)) as [->|Hne]; [left; apply lookup_delete_eq|].
      right. by rewrite lookup_delete_ne.
    + exists (match webio_sessions w !! sid with
              | Some r => [CallClose r]
              | None => []
              end ++ cl).
      rewrite IHc, Hc. change (calls w2) with (calls w).
      change (webio_sessions w2) with (webio_sessions w).
      rewrite app_assoc. split; [done|]. apply Forall_app. split.
      * destruct (webio_sessions w !! sid) as [r|] eqn:Hr'; repeat constructor.
        by exists sid, r.
      * eapply Forall_impl; [exact IHcl|]. intros c (k & r & -> & Hk).
        rewrite Hs in Hk. apply lookup_delete_Some in Hk as [_ Hk]. by exists k, r.
Qed.

Lemma clean_up_frame (self : HttpHandler) (w : World) :
  draws (clean_up_at_intervals self w) = draws w
  /\ dom (objects (clean_up_at_intervals self w)) = dom (objects w)
  /\ (forall k, webio_sessions (clean_up_at_intervals self w) !! k = None
                \/ webio_sessions (clean_up_at_intervals self w) !! k
                   = webio_sessions w !! k)
  /\ exists cl, calls (clean_up_at_intervals self w) = calls w ++ cl
                /\ Forall (closes_registered (webio_sessions w)) cl.
Proof.
  unfold clean_up_at_intervals. simpl. destruct (_ >? _).
  - unfold _remove_expired_sessions.
    match goal with |- context [expire_loop ?f ?e ?x] =>
      destruct (expire_loop_frame f e x) as (Hr & _ & Ho & Hs & Hc) end.
    split_and!; done.
  - simpl. split_and!; auto. exists []. by rewrite app_nil_r.
Qed.

Lemma remove_if_closed_frame (sid : string) (r : nat) (w : World) :
  draws (remove_if_closed sid r w) = draws w
  /\ objects (remove_if_closed sid r w) = objects w
  /\ (forall k, webio_sessions (remove_if_closed sid r w) !! k = None
                \/ webio_sessions (remove_if_closed sid r w) !! k
                   = webio_sessions w !! k).
Proof.
  unfold remove_if_closed, call_closed.
  destruct (match objects w !! r with Some s => closed s | None => false end); simpl.
  - split_and!; [done|by apply alter_id|].
    intros k. destruct (decide (k = sid)) as [->|Hne]; [left; apply lookup_delete_eq|].
    right. by rewrite lookup_delete_ne.
  - split_and!; [done|by apply alter_id|auto].
Qed.

(** A request served from a session draws no id, allocates no object,
    registers no id, and calls: [send_client_event] for the event of a
    [POST], [close()] from the sweep, then [get_task_commands()] and
    [closed()] on its own session. *)
Lemma serve_session_frame (self : HttpHandler) (req : Request) (c : Response)
    (sid : string) (r : nat) (w : World) :
  draws (serve_session self req c sid r w).2 = draws w
  /\ dom (objects (serve_session self req c sid r w).2) = dom (objects w)
  /\ (forall k, webio_sessions (serve_session self req c sid r w).2 !! k = None
                \/ webio_sessions (serve_session self req c sid r w).2 !! k
                   = webio_sessions w !! k)
  /\ exists cl, calls (serve_session self req c sid r w).2
                = calls w ++ delivery_calls req r ++ cl
                  ++ [CallGetTaskCommands r; CallClosed r]
                /\ Forall (closes_registered (webio_sessions w)) cl.
Proof.
  unfold serve_session.
  set (w1 := if String.eqb (request_method req) "POST"
             then match request_json req with
                  | Some event => call_send_client_event r event w
                  | None => w
                  end
             else w).
  assert (H1 : draws w1 = draws w /\ dom (objects w1) = dom (objects w)
               /\ webio_sessions w1 = webio_sessions w
               /\ calls w1 = calls w ++ delivery_calls req r).
  { unfold w1, delivery_calls. destruct (String.eqb _ _).
    - destruct (request_json req); simpl.
      + split_and!; try done. apply dom_alter_L.
      + by rewrite app_nil_r.
    - by rewrite app_nil_r. }
  destruct H1 as (Hr1 & Ho1 & Hs1 & Hc1). clearbody w1. simpl.
  match goal with |- context [clean_up_at_intervals self ?x] => set (w3 := x) end.
  destruct (clean_up_frame self w3) as (Hr4 & Ho4 & Hs4 & cl & Hc4 & Hcl).
  set (w4 := clean_up_at_intervals self w3) in *.
  match goal with |- context [remove_if_closed sid r ?x] => set (w5 := x) end.
  destruct (remove_if_closed_frame sid r w5) as (Hr6 & Ho6 & Hs6).
  split_and!.
  - rewrite Hr6. simpl. rewrite Hr4. simpl. done.
  - rewrite Ho6. simpl. rewrite dom_alter_L, Ho4. simpl. done.
  - intros k. destruct (Hs6 k) as [-> | ->]; [by left|]. simpl.
    destruct (Hs4 k) as [-> | ->]; [by left|]. simpl. right. by rewrite Hs1.
  - exists cl. split; [|by rewrite <- Hs1].
    rewrite calls_remove_if_closed. simpl. rewrite Hc4. simpl. rewrite Hc1.
    rewrite <- !app_assoc. done.
Qed.

(** ** The ways a request is handled *)

Lemma handle_request_established (self : HttpHandler) (req : Request) (w : World)
    (sid : string) (r : nat) :
  request_method req <> "OPTIONS" ->
  truthy_opt (request_url_parameter req "test") = false ->
  request_headers req !! "webio-session-id" = Some sid ->
  sid <> "" ->
  webio_sessions w !! sid = Some r ->
  handle_request self req w = serve_session self req (begin_response self req) sid r w.
Proof.
  intros Hopt Htest Hsid Hne Hreg.
  assert (Ht : truthy sid = true) by (destruct sid; done).
  unfold handle_request, begin_response. apply String.eqb_neq in Hopt.
  rewrite Hopt, Htest, Hsid. simpl. rewrite Ht. simpl. by rewrite Hreg.
Qed.

Lemma creates_session_true (req : Request) :
  creates_session req = true <->
  String.eqb (request_method req) "OPTIONS" = false
  /\ truthy_opt (request_url_parameter req "test") = false
  /\ truthy_opt (request_headers req !! "webio-session-id") = false
  /\ String.eqb (request_method req) "POST" = false.
Proof.
  unfold creates_session. rewrite !andb_true_iff, !negb_true_iff. tauto.
Qed.

Lemma handle_request_creating (self : HttpHandler) (req : Request) (w : World) :
  creates_session req = true ->
  handle_request self req w
  = serve_session self req
      (set_header "webio-session-id" (random_at (draws w)) (begin_response self req))
      (random_at (draws w)) (fresh_ref w)
      {| webio_sessions := <[random_at (draws w) := fresh_ref w]> (webio_sessions w);
         webio_expire := webio_expire w;
         last_check_session_expire_ts := last_check_session_expire_ts w;
         objects := <[fresh_ref w :=
                        session_cls self (target self)
                          {| info_headers := request_headers req;
                             info_user_ip := get_client_ip req;
                             info_request := req;
                             info_backend := backend_name req |}]> (objects w);
         calls := calls w;
         ticks := ticks w;
         draws := S (draws w) |}.
Proof.
  intros (Hopt & Htest & Hsid & Hpost)%creates_session_true.
  unfold handle_request, begin_response. rewrite Hopt, Htest, Hsid, Hpost.
  reflexivity.
Qed.

Lemma handle_request_trichotomy (self : HttpHandler) (req : Request) (w : World) :
  (handle_request self req w).2 = w
  \/ (exists sid r,
        webio_sessions w !! sid = Some r
        /\ handle_request self req w
           = serve_session self req (begin_response self req) sid r w)
  \/ creates_session req = true.
Proof.
  unfold handle_request, begin_response, creates_session.
  destruct (String.eqb (request_method req) "OPTIONS"); [by left|].
  cbv zeta.
  destruct (truthy_opt (request_url_parameter req "test")); [by left|].
  destruct (truthy_opt (request_headers req !! "webio-session-id")); simpl.
  - destruct (webio_sessions w !! _) as [r|] eqn:Hreg; [|by left].
    right; left. eauto.
  - destruct (String.eqb (request_method req) "POST"); [by left|]. by right; right.
Qed.

(** ** Invariants of the registry *)

Lemma consistent_sweep (expire_seconds : Z) (w : World) :
  registry_consistent w ->
  registry_consistent (_remove_expired_sessions expire_seconds w).
Proof.
  intros [Hwf Hsame].
  destruct (sweep_outcome expire_seconds w Hwf) as (He & Hgone & Hkept & _).
  set (n := expired_count expire_seconds (ticks w) (webio_expire w)) in *.
  split.
  - rewrite He. unfold lru_wf, lru_keys in *. rewrite fmap_drop.
    eapply sublist_NoDup; [exact Hwf|apply sublist_drop].
  - intros sid. destruct (decide (sid ∈ lru_keys (take n (webio_expire w)))) as [Hin|Hnin].
    + destruct (Hgone sid Hin) as (Hidx & Hmap & _). rewrite Hmap.
      split; [by intros [? ?]|done].
    + rewrite (Hkept sid Hnin), Hsame, He. unfold lru_keys in *.
      rewrite <- (take_drop n (webio_expire w)) at 1.
      rewrite fmap_app, elem_of_app. tauto.
Qed.

Lemma consistent_remove (sid : string) (w : World) :
  registry_consistent w -> registry_consistent (_remove_webio_session sid w).
Proof.
  intros [Hwf Hsame]. split; simpl.
  - by apply lru_wf_remove.
  - intros k. unfold lru_pop. rewrite lru_keys_remove, <- Hsame.
    destruct (decide (k = sid)) as [->|Hne].
    + rewrite lookup_delete_eq. split; [by intros [? ?]|by intros [? _]].
    + rewrite lookup_delete_ne by done. tauto.
Qed.

Lemma consistent_clean_up (self : HttpHandler) (w : World) :
  registry_consistent w -> registry_consistent (clean_up_at_intervals self w).
Proof.
  intros Hw. unfold clean_up_at_intervals. simpl. destruct (_ >? _); [|exact Hw].
  apply consistent_sweep. exact Hw.
Qed.

Lemma consistent_remove_if_closed (sid : string) (r : nat) (w : World) :
  registry_consistent w -> registry_consistent (remove_if_closed sid r w).
Proof.
  intros Hw. unfold remove_if_closed, call_closed.
  destruct (match objects w !! r with Some s => closed s | None => false end).
  - apply consistent_remove. exact Hw.
  - exact Hw.
Qed.

(** Serving a request from a registered session restores the agreement of
    the session map and the index, even if the id was not yet in the
    index (a session just created). *)
Lemma consistent_serve_session (self : HttpHandler) (req : Request) (c : Response)
    (sid : string) (r : nat) (w : World) :
  lru_wf (webio_expire w) ->
  (forall k, k <> sid ->
     is_Some (webio_sessions w !! k) <-> k ∈ lru_keys (webio_expire w)) ->
  is_Some (webio_sessions w !! sid) ->
  registry_consistent (serve_session self req c sid r w).2.
Proof.
  intros Hwf Hsame Hsid. unfold serve_session.
  set (w1 := if String.eqb (request_method req) "POST"
             then match request_json req with
                  | Some event => call_send_client_event r event w
                  | None => w
                  end
             else w).
  assert (H1 : webio_sessions w1 = webio_sessions w
               /\ webio_expire w1 = webio_expire w).
  { unfold w1. destruct (String.eqb _ _); [|done]. by destruct (request_json req). }
  destruct H1 as [Hs1 He1]. clearbody w1. simpl.
  apply consistent_remove_if_closed.
  match goal with |- registry_consistent ?x =>
    change (registry_consistent
              (clean_up_at_intervals self
                 (with_expire (lru_setitem sid (time_at (ticks w1)) (webio_expire w1))
                    (time_time w1).2))) end.
  apply consistent_clean_up. split; simpl.
  - rewrite He1. by apply lru_wf_setitem.
  - intros k. rewrite lru_keys_setitem, Hs1, He1.
    destruct (decide (k = sid)) as [->|Hne]; [tauto|].
    rewrite (Hsame k Hne). tauto.
Qed.

Lemma minted_sub (w w' : World) :
  (forall k, webio_sessions w' !! k = None \/ webio_sessions w' !! k = webio_sessions w !! k) ->
  (draws w <= draws w')%nat ->
  ids_minted w -> ids_minted w'.
Proof.
  intros Hsub Hle Hw sid Hsome. destruct (Hsub sid) as [Hn|Heq].
  - rewrite Hn in Hsome. by destruct Hsome.
  - rewrite Heq in Hsome. destruct (Hw sid Hsome) as (k & Hk & ->).
    exists k. split; [lia|done].
Qed.

Lemma handles_sub (w w' : World) :
  (forall k, webio_sessions w' !! k = None \/ webio_sessions w' !! k = webio_sessions w !! k) ->
  dom (objects w') = dom (objects w) ->
  handles_distinct w -> handles_distinct w'.
Proof.
  intros Hsub Hdom [Hvalid Hinj]. split.
  - intros sid r Hr. destruct (Hsub sid) as [Hn|Heq]; [congruence|].
    rewrite Heq in Hr. apply elem_of_dom. rewrite Hdom. apply elem_of_dom. eauto.
  - intros sid1 sid2 r H1 H2.
    destruct (Hsub sid1) as [Hn1|Heq1]; [congruence|].
    destruct (Hsub sid2) as [Hn2|Heq2]; [congruence|].
    rewrite Heq1 in H1. rewrite Heq2 in H2. eauto.
Qed.

Lemma registry_invariants_step (w w' : World) :
  step w w' ->
  registry_consistent w /\ ids_minted w /\ handles_distinct w ->
  registry_consistent w' /\ ids_minted w' /\ handles_distinct w'.
Proof.
  intros Hstep (Hcons & Hmint & Hhand).
  destruct Hstep as [self req w|thr w|sid w|objs w Hdom].
  - destruct (handle_request_trichotomy self req w)
      as [->|[(sid & r & Hreg & ->)|Hnew]]; [done| |].
    + destruct (serve_session_frame self req (begin_response self req) sid r w)
        as (Hr & Ho & Hs & _).
      split_and!.
      * destruct Hcons as [Hwf Hsame].
        apply consistent_serve_session; [done| |by rewrite Hreg].
        intros k _. apply Hsame.
      * eapply minted_sub; [exact Hs|lia|done].
      * eapply handles_sub; [exact Hs|exact Ho|done].
    + rewrite (handle_request_creating self req w Hnew).
      set (sid := random_at (draws w)). set (r := fresh_ref w).
      match goal with |- context [serve_session self req ?c sid r ?x] =>
        set (c0 := c); set (w0 := x) end.
      destruct (serve_session_frame self req c0 sid r w0) as (Hr & Ho & Hs & _).
      assert (Hfresh : objects w !! r = None).
      { apply not_elem_of_dom. apply is_fresh. }
      split_and!.
      * destruct Hcons as [Hwf Hsame].
        apply consistent_serve_session; simpl.
        -- done.
        -- intros k Hk. rewrite lookup_insert_ne by done. apply Hsame.
        -- rewrite lookup_insert_eq. eauto.
      * eapply minted_sub; [exact Hs|lia|].
        intros k Hk. simpl in Hk. simpl.
        destruct (decide (k = sid)) as [->|Hne].
        -- exists (draws w). split; [lia|done].
        -- rewrite lookup_insert_ne in Hk by done.
           destruct (Hmint k Hk) as (j & Hj & ->). exists j. split; [lia|done].
      * eapply handles_sub; [exact Hs|exact Ho|].
        destruct Hhand as [Hvalid Hinj]. split; simpl.
        -- intros k r' Hk. destruct (decide (k = sid)) as [->|Hne].
           ++ rewrite lookup_insert_eq in Hk. injection Hk as <-.
              rewrite lookup_insert_eq. eauto.
           ++ rewrite lookup_insert_ne in Hk by done.
              destruct (decide (r' = r)) as [->|Hr'].
              ** rewrite lookup_insert_eq. eauto.
              ** rewrite lookup_insert_ne by done. eauto.
        -- intros k1 k2 r' H1 H2.
           destruct (decide (k1 = sid)) as [->|Hne1];
             destruct (decide (k2 = sid)) as [->|Hne2]; [done| | |].
           ++ rewrite lookup_insert_eq in H1. injection H1 as <-.
              rewrite lookup_insert_ne in H2 by done.
              destruct (Hvalid k2 r H2) as [s Hs']. congruence.
           ++ rewrite lookup_insert_eq in H2. injection H2 as <-.
              rewrite lookup_insert_ne in H1 by done.
              destruct (Hvalid k1 r H1) as [s Hs']. congruence.
           ++ rewrite lookup_insert_ne in H1, H2 by done. eauto.
  - unfold _remove_expired_sessions.
    destruct (expire_loop_frame (length (webio_expire w)) thr w)
      as (Hr & _ & Ho & Hs & _).
    split_and!.
    + by apply consistent_sweep.
    + eapply minted_sub; [exact Hs|lia|done].
    + eapply handles_sub; [exact Hs|exact Ho|done].
  - assert (Hs : forall k,
      webio_sessions (_remove_webio_session sid w) !! k = None
      \/ webio_sessions (_remove_webio_session sid w) !! k = webio_sessions w !! k).
    { intros k. simpl. destruct (decide (k = sid)) as [->|Hne].
      - left. apply lookup_delete_eq.
      - right. by rewrite lookup_delete_ne. }
    split_and!.
    + by apply consistent_remove.
    + eapply minted_sub; [exact Hs|done|done].
    + eapply handles_sub; [exact Hs|done|done].
  - split_and!; [done|done|].
    eapply handles_sub; [|exact Hdom|exact Hhand]. intros k. by right.
Qed.

Lemma registry_invariants_reachable (w : World) :
  reachable w -> registry_consistent w /\ ids_minted w /\ handles_distinct w.
Proof.
  unfold reachable. revert w.
  apply (rtc_ind_r
           (fun w => registry_consistent w /\ ids_minted w /\ handles_distinct w)).
  - split_and!.
    + split; [apply NoDup_nil_2|]. intros sid. simpl. rewrite lookup_empty.
      split; [by intros [? ?]|]. intros H. by apply elem_of_nil in H.
    + intros sid. simpl. rewrite lookup_empty. by intros [? ?].
    + split; intros ?; simpl; intros; by rewrite lookup_empty in *.
  - intros w1 w2 _ Hstep IH. by eapply registry_invariants_step.
Qed.

(** X1: in every reachable state the session map and the activity index
    hold the same ids, and the index holds each of them once: a session is
    registered exactly when it can expire. *)
Theorem registry_and_index_agree (w : World) :
  reachable w -> registry_consistent w.
Proof. intros Hw. by destruct (registry_invariants_reachable w Hw) as (? & _ & _). Qed.

(** X2: in every reachable state each registered session id is a value
    returned by [random_str]: no request makes the handler register an id
    chosen by the client. *)
Theorem registered_ids_are_minted (w : World) :
  reachable w -> ids_minted w.
Proof. intros Hw. by destruct (registry_invariants_reachable w Hw) as (_ & ? & _). Qed.

(** X3: in every reachable state each registered id refers to an existing
    session object and no two ids refer to the same one, so a call on the
    session of one id never acts on the session of another. *)
Theorem handles_are_distinct_objects (w : World) :
  reachable w -> handles_distinct w.
Proof. intros Hw. by destruct (registry_invariants_reachable w Hw) as (_ & _ & ?). Qed.

(** ** The response *)

#[local] Arguments begin_response : simpl never.

Lemma begin_response_fields (self : HttpHandler) (req : Request) :
  resp_status (begin_response self req) = 200
  /\ resp_content (begin_response self req) = None
  /\ resp_headers (begin_response self req)
     = if truthy_opt (request_headers req !! "Origin")
          && check_origin self (request_origin req)
       then cors_headers (request_origin req) else [].
Proof.
  unfold begin_response.
  destruct (truthy_opt (request_headers req !! "Origin")); simpl; [|done].
  destruct (process_cors_frame self req new_response) as (Hh & Hs & Hc).
  by rewrite Hh, Hs, Hc.
Qed.

Lemma serve_session_response (self : HttpHandler) (req : Request) (c : Response)
    (sid : string) (r : nat) (w : World) :
  resp_status (serve_session self req c sid r w).1 = resp_status c
  /\ resp_headers (serve_session self req c sid r w).1 = resp_headers c
  /\ exists commands,
       resp_content (serve_session self req c sid r w).1 = Some (JArr commands, true).
Proof. unfold serve_session. simpl. eauto. Qed.

(** X4: a preflight ([OPTIONS]) is answered 204 without body and leaves
    the state untouched, whatever its session id and URL parameters; the
    origin policy is applied to the [Origin] header, or to the empty string
    when there is none, and the five CORS headers are the only headers. *)
Theorem preflight_answer (self : HttpHandler) (req : Request) (w : World) :
  request_method req = "OPTIONS" ->
  (handle_request self req w).2 = w
  /\ resp_status (handle_request self req w).1 = 204
  /\ resp_content (handle_request self req w).1 = None
  /\ resp_headers (handle_request self req w).1
     = if check_origin self (request_origin req)
       then cors_headers (request_origin req) else [].
Proof.
  intros Hopt. unfold handle_request. rewrite Hopt. simpl.
  destruct (process_cors_frame self req new_response) as (Hh & _ & Hc).
  by rewrite Hh, Hc.
Qed.

(** X5: a liveness probe (a non-empty [test] URL parameter on a request
    that is no preflight) is answered 200 with the text [ok], not as JSON,
    and leaves the state untouched, whatever its method and whether or not
    it bears a session id, registered or not. *)
Theorem probe_answer (self : HttpHandler) (req : Request) (w : World) :
  request_method req <> "OPTIONS" ->
  truthy_opt (request_url_parameter req "test") = true ->
  (handle_request self req w).2 = w
  /\ resp_status (handle_request self req w).1 = 200
  /\ resp_content (handle_request self req w).1 = Some (JStr "ok", false)
  /\ resp_headers (handle_request self req w).1 = resp_headers (begin_response self req).
Proof.
  intros Hopt Htest. apply String.eqb_neq in Hopt.
  unfold handle_request. rewrite Hopt, Htest. simpl.
  fold (begin_response self req).
  by destruct (begin_response_fields self req) as (-> & _ & _).
Qed.

(** X6: the status is 204 exactly for a preflight, 403 exactly for a
    [POST] that is no probe and bears no session id, and 200 otherwise;
    the response has a body exactly when the status is 200, and the body
    is sent as JSON unless the request is a probe. *)
Theorem status_and_body (self : HttpHandler) (req : Request) (w : World) :
  (resp_status (handle_request self req w).1 = 204 <-> request_method req = "OPTIONS")
  /\ (resp_status (handle_request self req w).1 = 403 <->
      request_method req = "POST"
      /\ truthy_opt (request_url_parameter req "test") = false
      /\ truthy_opt (request_headers req !! "webio-session-id") = false)
  /\ (resp_status (handle_request self req w).1 = 200 <->
      resp_status (handle_request self req w).1 <> 204
      /\ resp_status (handle_request self req w).1 <> 403)
  /\ (resp_content (handle_request self req w).1 = None <->
      resp_status (handle_request self req w).1 <> 200)
  /\ (forall body, resp_content (handle_request self req w).1 = Some (body, false) ->
        body = JStr "ok"
        /\ truthy_opt (request_url_parameter req "test") = true).
Proof.
  destruct (begin_response_fields self req) as (Hst & Hco & _).
  unfold handle_request. fold (begin_response self req).
  destruct (String.eqb_spec (request_method req) "OPTIONS") as [Hopt|Hopt].
  { simpl. destruct (process_cors_frame self req new_response) as (_ & _ & Hc).
    rewrite Hc, Hopt. simpl. split_and!; try done.
    - split; [done|]. by intros [? _].
    - split; [done|]. by intros [? _]. }
  cbv zeta.
  destruct (truthy_opt (request_url_parameter req "test")) eqn:Htest.
  { simpl. rewrite Hst. split_and!; try done.
    - split; [done|]. by intros (_ & ? & _).
    - intros body [= <-]. done. }
  destruct (truthy_opt (request_headers req !! "webio-session-id")) eqn:Hsid; simpl.
  - assert (Hok : forall x : Response * World,
              resp_status x.1 = 200 ->
              (exists commands, resp_content x.1 = Some (JArr commands, true)) ->
              (resp_status x.1 = 204 <-> request_method req = "OPTIONS")
              /\ (resp_status x.1 = 403 <->
                  request_method req = "POST" /\ false = false /\ true = false)
              /\ (resp_status x.1 = 200 <->
                  resp_status x.1 <> 204 /\ resp_status x.1 <> 403)
              /\ (resp_content x.1 = None <-> resp_status x.1 <> 200)
              /\ (forall body, resp_content x.1 = Some (body, false) ->
                    body = JStr "ok" /\ false = true)).
    { intros x Hx [cmds Hc]. rewrite Hx, Hc. split_and!; try done.
      split; [done|]. by intros (_ & _ & ?). }
    destruct (webio_sessions w !! _) as [r|].
    + apply Hok.
      * by rewrite (proj1 (serve_session_response _ _ _ _ _ _)).
      * apply serve_session_response.
    + apply Hok; simpl; eauto.
  - destruct (String.eqb_spec (request_method req) "POST") as [Hpost|Hpost].
    + simpl. rewrite Hco. split_and!; try done.
      split; [done|]. by intros [? ?].
    + unfold random_str, construct. cbv beta iota zeta.
      match goal with |- context [serve_session ?a ?b ?c ?d ?e ?f] =>
        destruct (serve_session_response a b c d e f) as (Hs & _ & cmds & Hc) end.
      rewrite Hs, Hc. simpl. rewrite Hst. split_and!; try done.
      split; [done|]. by intros (? & _).
Qed.

(** X7: a request that is no preflight gets the five CORS headers only if
    it has a non-empty [Origin] header that the policy allows, and a
    [webio-session-id] header exactly when it makes the handler create a
    session; that header carries the id just drawn. No other header is set. *)
Theorem response_headers (self : HttpHandler) (req : Request) (w : World) :
  request_method req <> "OPTIONS" ->
  resp_headers (handle_request self req w).1
  = (if truthy_opt (request_headers req !! "Origin")
        && check_origin self (request_origin req)
     then cors_headers (request_origin req) else [])
    ++ (if creates_session req
        then [("webio-session-id", random_at (draws w))] else []).
Proof.
  intros Hopt. destruct (begin_response_fields self req) as (_ & _ & <-).
  destruct (creates_session req) eqn:Hnew.
  { rewrite (handle_request_creating self req w Hnew).
    by rewrite (proj1 (proj2 (serve_session_response _ _ _ _ _ _))). }
  rewrite app_nil_r. apply String.eqb_neq in Hopt.
  unfold creates_session in Hnew. rewrite Hopt in Hnew. simpl in Hnew.
  unfold handle_request. fold (begin_response self req). rewrite Hopt. cbv zeta.
  destruct (truthy_opt (request_url_parameter req "test")); [done|].
  destruct (truthy_opt (request_headers req !! "webio-session-id")); simpl in *.
  - destruct (webio_sessions w !! _); [|done].
    by rewrite (proj1 (proj2 (serve_session_response _ _ _ _ _ _))).
  - apply negb_false_iff in Hnew. by rewrite Hnew.
Qed.

(** ** A request served while no sweep is due *)

Lemma alter_lookup_Some {A : Type} (f : A -> A) (m : gmap nat A) (i : nat) (x : A) :
  m !! i = Some x -> alter f i m = <[i := f x]> m.
Proof.
  intros Hx. apply map_eq. intros j. destruct (decide (i = j)) as [->|Hne].
  - by rewrite lookup_alter_eq, lookup_insert_eq, Hx.
  - by rewrite lookup_alter_ne, lookup_insert_ne.
Qed.

Lemma lru_remove_setitem (k : string) (v : Z) (d : LRUDict) :
  lru_remove k (lru_setitem k v d) = lru_remove k d.
Proof.
  unfold lru_setitem. unfold lru_remove at 1. rewrite filter_app.
  rewrite filter_cons_False by (simpl; intros H; by apply H).
  rewrite filter_nil, app_nil_r. apply lru_remove_idem.
Qed.

(** The whole effect of serving a request from the session object [s],
    when the cleanup interval has not elapsed. *)
Lemma serve_session_no_sweep (self : HttpHandler) (req : Request) (c : Response)
    (sid : string) (r : nat) (w : World) (s : Session) :
  objects w !! r = Some s ->
  sweep_due self w = false ->
  serve_session self req c sid r w
  = (set_content (JArr (get_task_commands (deliver req s)).1) true c,
     {| webio_sessions :=
          if closed (get_task_commands (deliver req s)).2
          then delete sid (webio_sessions w) else webio_sessions w;
        webio_expire :=
          if closed (get_task_commands (deliver req s)).2
          then lru_remove sid (webio_expire w)
          else lru_setitem sid (time_at (ticks w)) (webio_expire w);
        last_check_session_expire_ts := last_check_session_expire_ts w;
        objects := <[r := (get_task_commands (deliver req s)).2]> (objects w);
        calls := calls w ++ delivery_calls req r
                 ++ [CallGetTaskCommands r; CallClosed r];
        ticks := S (S (ticks w));
        draws := draws w |}).
Proof.
  intros Hobj Hdue. unfold serve_session.
  set (w1 := if String.eqb (request_method req) "POST"
             then match request_json req with
                  | Some event => call_send_client_event r event w
                  | None => w
                  end
             else w).
  assert (H1 : w1 = {| webio_sessions := webio_sessions w;
                       webio_expire := webio_expire w;
                       last_check_session_expire_ts := last_check_session_expire_ts w;
                       objects := <[r := deliver req s]> (objects w);
                       calls := calls w ++ delivery_calls req r;
                       ticks := ticks w;
                       draws := draws w |}).
  { unfold w1, deliver, delivery_calls. destruct (String.eqb _ _).
    - destruct (request_json req) as [ev|].
      + unfold call_send_client_event, invoke.
        by rewrite (alter_lookup_Some _ _ _ _ Hobj).
      + rewrite app_nil_r, (insert_id _ _ _ Hobj). by destruct w.
    - rewrite app_nil_r, (insert_id _ _ _ Hobj). by destruct w. }
  clearbody w1. subst w1. simpl.
  unfold clean_up_at_intervals. simpl.
  unfold sweep_due in Hdue. rewrite Hdue.
  unfold call_get_task_commands, remove_if_closed, call_closed, invoke. simpl.
  rewrite !lookup_insert_eq, alter_insert_eq. simpl.
  rewrite lookup_insert_eq, (alter_id (fun s0 => s0)) by done.
  destruct (closed (get_task_commands (deliver req s)).2); simpl.
  - unfold _remove_webio_session, lru_pop. simpl.
    rewrite lru_remove_setitem, <- !app_assoc. done.
  - rewrite <- !app_assoc. done.
Qed.

(** X8: a request bearing the id of a registered session, where no sweep
    is due, delivers the event of a [POST] with a JSON body to the session,
    then answers with the commands the session hands out after that, as
    JSON. The session's object is the only one that changes; the session's
    entry moves to the most recently seen end of the index with the first
    clock reading of the request, unless the session is then seen closed,
    in which case the id leaves the session map and the index. No other
    id is touched, and two clock readings are taken. *)
Theorem request_served_without_sweep (self : HttpHandler) (req : Request) (w : World)
    (sid : string) (r : nat) (s : Session) :
  request_method req <> "OPTIONS" ->
  truthy_opt (request_url_parameter req "test") = false ->
  request_headers req !! "webio-session-id" = Some sid ->
  sid <> "" ->
  webio_sessions w !! sid = Some r ->
  objects w !! r = Some s ->
  sweep_due self w = false ->
  handle_request self req w
  = (set_content (JArr (get_task_commands (deliver req s)).1) true
       (begin_response self req),
     {| webio_sessions :=
          if closed (get_task_commands (deliver req s)).2
          then delete sid (webio_sessions w) else webio_sessions w;
        webio_expire :=
          if closed (get_task_commands (deliver req s)).2
          then lru_remove sid (webio_expire w)
          else lru_setitem sid (time_at (ticks w)) (webio_expire w);
        last_check_session_expire_ts := last_check_session_expire_ts w;
        objects := <[r := (get_task_commands (deliver req s)).2]> (objects w);
        calls := calls w ++ delivery_calls req r
                 ++ [CallGetTaskCommands r; CallClosed r];
        ticks := S (S (ticks w));
        draws := draws w |}).
Proof.
  intros Hopt Htest Hsid Hne Hreg Hobj Hdue.
  rewrite (handle_request_established self req w sid r) by done.
  by apply serve_session_no_sweep.
Qed.

(** X9: a request that is no preflight, no probe and no [POST] and bears
    no session id creates a session: it draws an id, constructs the session
    from the request's headers, client address, request object and backend
    name, and is answered with the id in the [webio-session-id] header and
    the session's first commands as JSON. Where no sweep is due, the id is
    then registered under a new object and is the most recently seen entry
    of the index, with the first clock reading of the request, unless the
    session is already closed, in which case nothing stays registered. *)
Theorem session_created_without_sweep (self : HttpHandler) (req : Request) (w : World) :
  creates_session req = true ->
  sweep_due self w = false ->
  let sid := random_at (draws w) in
  let r := fresh_ref w in
  let s := session_cls self (target self)
             {| info_headers := request_headers req;
                info_user_ip := get_client_ip req;
                info_request := req;
                info_backend := backend_name req |} in
  objects w !! r = None
  /\ handle_request self req w
     = (set_content (JArr (get_task_commands s).1) true
          (set_header "webio-session-id" sid (begin_response self req)),
        {| webio_sessions :=
             if closed (get_task_commands s).2
             then delete sid (webio_sessions w) else <[sid := r]> (webio_sessions w);
           webio_expire :=
             if closed (get_task_commands s).2
             then lru_remove sid (webio_expire w)
             else lru_setitem sid (time_at (ticks w)) (webio_expire w);
           last_check_session_expire_ts := last_check_session_expire_ts w;
           objects := <[r := (get_task_commands s).2]> (objects w);
           calls := calls w ++ [CallGetTaskCommands r; CallClosed r];
           ticks := S (S (ticks w));
           draws := S (draws w) |}).
Proof.
  intros Hnew Hdue. cbv zeta.
  split; [apply not_elem_of_dom, is_fresh|].
  rewrite (handle_request_creating self req w Hnew).
  apply creates_session_true in Hnew as (_ & _ & _ & Hpost).
  match goal with |- serve_session _ _ ?c ?sid ?r ?w0 = _ =>
    rewrite (serve_session_no_sweep self req c sid r w0
               (session_cls self (target self)
                  {| info_headers := request_headers req;
                     info_user_ip := get_client_ip req;
                     info_request := req;
                     info_backend := backend_name req |}))
  end; [|simpl; apply lookup_insert_eq|exact Hdue].
  unfold deliver, delivery_calls. rewrite Hpost. simpl.
  by rewrite insert_insert_eq, delete_insert_eq.
Qed.

(** X10: the calls a request bearing a registered id makes on sessions
    are, in this order: [send_client_event] on its session if it is a
    [POST] with a JSON body, [close()] on handles registered before the
    request (those the sweep evicts, none if no sweep is due), then
    [get_task_commands()] and [closed()] on its session. It draws no id,
    creates no object and registers no id. *)
Theorem calls_of_a_served_request (self : HttpHandler) (req : Request) (w : World)
    (sid : string) (r : nat) :
  request_method req <> "OPTIONS" ->
  truthy_opt (request_url_parameter req "test") = false ->
  request_headers req !! "webio-session-id" = Some sid ->
  sid <> "" ->
  webio_sessions w !! sid = Some r ->
  draws (handle_request self req w).2 = draws w
  /\ dom (objects (handle_request self req w).2) = dom (objects w)
  /\ (forall k r', webio_sessions (handle_request self req w).2 !! k = Some r' ->
                   webio_sessions w !! k = Some r')
  /\ exists cl,
       calls (handle_request self req w).2
       = calls w ++ delivery_calls req r ++ cl
         ++ [CallGetTaskCommands r; CallClosed r]
       /\ Forall (closes_registered (webio_sessions w)) cl
       /\ (sweep_due self w = false -> cl = []).
Proof.
  intros Hopt Htest Hsid Hne Hreg.
  rewrite (handle_request_established self req w sid r) by done.
  destruct (serve_session_frame self req (begin_response self req) sid r w)
    as (Hr & Ho & Hs & cl & Hc & Hcl).
  split_and!; try done.
  - intros k r' Hk. destruct (Hs k) as [Hn|Heq]; congruence.
  - exists cl. split_and!; try done.
    intros Hdue. revert Hc. unfold serve_session. simpl.
    rewrite calls_remove_if_closed. simpl.
    unfold clean_up_at_intervals. simpl.
    set (w1 := if String.eqb (request_method req) "POST"
               then match request_json req with
                    | Some event => call_send_client_event r event w
                    | None => w
                    end
               else w).
    assert (H1 : ticks w1 = ticks w
                 /\ last_check_session_expire_ts w1 = last_check_session_expire_ts w
                 /\ calls w1 = calls w ++ delivery_calls req r).
    { unfold w1, delivery_calls. destruct (String.eqb _ _).
      - destruct (request_json req); simpl; [done|by rewrite app_nil_r].
      - by rewrite app_nil_r. }
    destruct H1 as (Ht1 & Hl1 & Hc1). clearbody w1.
    unfold sweep_due in Hdue. rewrite Ht1, Hl1, Hdue. simpl. rewrite Hc1.
    rewrite <- !app_assoc. intros Heq.
    apply app_inv_head in Heq. apply app_inv_head in Heq.
    destruct cl as [|c0 cl']; [done|]. simpl in Heq.
    injection Heq as Hc0 Hrest. destruct (Forall_inv Hcl) as (k & r' & -> & _).
    discriminate.
Qed.




(** ** More on the sweep *)

(** X12: a sweep pops a prefix of the index and leaves the rest in place,
    in order. It reads the clock once per entry popped, and once more if
    an entry is left; it calls [close()] once per popped id that is
    registered, in the order of the index, and makes no other call; ids
    outside the prefix keep their entry in the session map. *)
Theorem sweep_pops_a_prefix (expire_seconds : Z) (w : World) :
  lru_wf (webio_expire w) ->
  exists popped,
    webio_expire w = popped ++ webio_expire (_remove_expired_sessions expire_seconds w)
    /\ ticks (_remove_expired_sessions expire_seconds w)
       = (ticks w + length popped
          + match webio_expire (_remove_expired_sessions expire_seconds w) with
            | [] => 0
            | _ :: _ => 1
            end)%nat
    /\ calls (_remove_expired_sessions expire_seconds w)
       = calls w ++ omap (fun k => CallClose <$> webio_sessions w !! k) (lru_keys popped)
    /\ (forall sid, webio_sessions (_remove_expired_sessions expire_seconds w) !! sid
                    = if decide (sid ∈ lru_keys popped) then None
                      else webio_sessions w !! sid)
    /\ draws (_remove_expired_sessions expire_seconds w) = draws w
    /\ last_check_session_expire_ts (_remove_expired_sessions expire_seconds w)
       = last_check_session_expire_ts w.
Proof.
  intros Hwf. unfold _remove_expired_sessions.
  destruct (expire_loop_spec (length (webio_expire w)) expire_seconds w Hwf (le_n _))
    as (He & Hs & Ht & Hr & Hl & Hc).
  pose proof (expired_count_le expire_seconds (ticks w) (webio_expire w)) as Hn.
  set (n := expired_count expire_seconds (ticks w) (webio_expire w)) in *.
  exists (take n (webio_expire w)).
  unfold lru_keys in *. rewrite fmap_take.
  split_and!; try done.
  - by rewrite He, take_drop.
  - rewrite Ht, He, length_take.
    destruct (drop n (webio_expire w)) as [|kv rest] eqn:Hdrop.
    + apply (f_equal length) in Hdrop. rewrite length_drop in Hdrop. simpl in Hdrop. lia.
    + apply (f_equal length) in Hdrop. rewrite length_drop in Hdrop. simpl in Hdrop. lia.
Qed.

Lemma expired_count_moving (expire_seconds : Z) (t : nat) (d : LRUDict) :
  clock_monotone ->
  StronglySorted Z.le (lru_values d) ->
  let n := expired_count expire_seconds t d in
  Forall (fun kv => forall k, (t + n <= S k)%nat -> expire_seconds <= time_at k - kv.2)
         (take n d)
  /\ Forall (fun kv => time_at (t + n) - kv.2 < expire_seconds) (drop n d).
Proof.
  intros Hmono. revert t. induction d as [|[sid ts] d IH]; intros t Hord.
  { split; constructor. }
  unfold lru_values in Hord. rewrite fmap_cons in Hord. simpl in Hord.
  apply StronglySorted_cons in Hord as [Hle Hord].
  cbv zeta. destruct (Z.ltb_spec (time_at t - ts) expire_seconds) as [Hlt|Hge].
  - rewrite (expired_count_fresh _ _ _ _ _ Hlt). simpl. split; [constructor|].
    rewrite Nat.add_0_r. constructor; [done|].
    rewrite Forall_fmap in Hle. eapply Forall_impl; [exact Hle|].
    intros [k v] Hv. simpl in *. lia.
  - rewrite (expired_count_expired _ _ _ _ _ Hge). simpl.
    destruct (IH (S t) Hord) as [Htake Hdrop].
    split.
    + constructor.
      * intros k Hk. simpl. specialize (Hmono t k). lia.
      * eapply Forall_impl; [exact Htake|]. intros kv Hkv k Hk. apply Hkv. lia.
    + by rewrite Nat.add_succ_r.
Qed.

Lemma sweep_moving_clock (expire_seconds : Z) (w : World) :
  clock_monotone ->
  lru_wf (webio_expire w) ->
  activity_ordered (webio_expire w) ->
  let w' := _remove_expired_sessions expire_seconds w in
  let last := time_at (pred (ticks w')) in
  (forall kv, kv ∈ webio_expire w' -> last - kv.2 < expire_seconds)
  /\ (forall kv, kv ∈ webio_expire w -> kv ∉ webio_expire w' ->
                 expire_seconds <= last - kv.2).
Proof.
  intros Hmono Hwf Hord. cbv zeta. unfold _remove_expired_sessions.
  apply activity_ordered_strong in Hord.
  destruct (expire_loop_spec (length (webio_expire w)) expire_seconds w Hwf (le_n _))
    as (He & _ & Ht & _).
  destruct (expired_count_moving expire_seconds (ticks w) (webio_expire w) Hmono Hord)
    as [Htake Hdrop].
  pose proof (expired_count_le expire_seconds (ticks w) (webio_expire w)) as Hn.
  set (n := expired_count expire_seconds (ticks w) (webio_expire w)) in *.
  rewrite Forall_forall in Htake, Hdrop. rewrite He, Ht. split.
  - intros kv Hin. specialize (Hdrop kv Hin).
    assert (Hlt : (n < length (webio_expire w))%nat).
    { apply list_elem_of_lookup in Hin as [i Hi]. rewrite lookup_drop in Hi.
      apply lookup_lt_Some in Hi. lia. }
    replace (pred (ticks w + S n `min` length (webio_expire w)))%nat
      with (ticks w + n)%nat by lia.
    done.
  - intros kv Hin Hout.
    rewrite <- (take_drop n (webio_expire w)) in Hin.
    apply elem_of_app in Hin as [Hin|Hin]; [|done].
    apply (Htake kv Hin). lia.
Qed.

(** X13: where the clock never goes back, after a sweep of an
    activity-ordered index every entry left is idle for less than the
    threshold at the last clock reading of the sweep, and every entry of
    the index that is gone is idle for the threshold or more at that
    reading; the clock may advance between the entries examined. *)
Theorem sweep_with_advancing_clock (expire_seconds : Z) (w : World) :
  clock_monotone ->
  lru_wf (webio_expire w) ->
  activity_ordered (webio_expire w) ->
  let w' := _remove_expired_sessions expire_seconds w in
  let last := time_at (pred (ticks w')) in
  (forall kv, kv ∈ webio_expire w' -> last - kv.2 < expire_seconds)
  /\ (forall kv, kv ∈ webio_expire w -> kv ∉ webio_expire w' ->
                 expire_seconds <= last - kv.2).
Proof. apply sweep_moving_clock. Qed.

Lemma expired_count_all (expire_seconds : Z) (t : nat) (d : LRUDict) :
  (forall kv k, kv ∈ d -> (t <= k)%nat -> expire_seconds <= time_at k - kv.2) ->
  expired_count expire_seconds t d = length d.
Proof.
  revert t. induction d as [|[sid ts] d IH]; intros t Hall; [done|].
  rewrite expired_count_expired.
  - simpl. f_equal. apply IH. intros kv k Hkv Hk. apply Hall; [by right|lia].
  - apply (Hall (sid, ts) t); [by left|done].
Qed.

(** X14: a sweep during which every entry of the index is idle for the
    threshold or more empties the index and leaves none of its ids in the
    session map, whatever the order of the index. *)
Theorem sweep_of_idle_index (expire_seconds : Z) (w : World) :
  lru_wf (webio_expire w) ->
  (forall kv k, kv ∈ webio_expire w -> (ticks w <= k)%nat ->
                expire_seconds <= time_at k - kv.2) ->
  webio_expire (_remove_expired_sessions expire_seconds w) = []
  /\ (forall sid, sid ∈ lru_keys (webio_expire w) ->
        webio_sessions (_remove_expired_sessions expire_seconds w) !! sid = None)
  /\ ticks (_remove_expired_sessions expire_seconds w)
     = (ticks w + length (webio_expire w))%nat.
Proof.
  intros Hwf Hidle. unfold _remove_expired_sessions.
  destruct (expire_loop_spec (length (webio_expire w)) expire_seconds w Hwf (le_n _))
    as (He & Hs & Ht & _).
  rewrite (expired_count_all _ _ _ Hidle) in He, Hs, Ht.
  rewrite drop_all in He.
  rewrite take_ge in Hs by (unfold lru_keys; rewrite length_fmap; lia).
  split_and!; [done| |lia].
  intros sid Hin. by rewrite Hs, decide_True.
Qed.

(** X15: a negative [session_expire_seconds] is stored as given (only
    [None] and 0 are replaced by the default), and with it, the clock
    never going back, a sweep in a reachable state evicts every session:
    the index and the session map are left empty. *)
Theorem negative_expiry_evicts_everything (tgt : Target)
    (cls : Target -> SessionInfo -> Session) (v : Z) (interval : option Z)
    (origins : option (list string)) (check : option (string -> bool)) (w : World) :
  v < 0 ->
  clock_monotone ->
  reachable w ->
  let self := init tgt cls (Some v) interval origins check in
  session_expire_seconds self = v
  /\ webio_expire (_remove_expired_sessions (session_expire_seconds self) w) = []
  /\ webio_sessions (_remove_expired_sessions (session_expire_seconds self) w) = ∅.
Proof.
  intros Hv Hmono Hreach. cbv zeta.
  assert (Hset : session_expire_seconds (init tgt cls (Some v) interval origins check) = v).
  { simpl. destruct (Z.eqb_spec v 0); [lia|done]. }
  rewrite Hset. split; [done|].
  destruct (index_inv_reachable w Hmono Hreach) as (Hwf & _ & Hpast).
  destruct (registry_invariants_reachable w Hreach) as ([_ Hsame] & _ & _).
  assert (Hidle : forall kv k, kv ∈ webio_expire w -> (ticks w <= k)%nat ->
                               v <= time_at k - kv.2).
  { intros kv k Hkv Hk. unfold lru_values in Hpast.
    rewrite Forall_fmap, Forall_forall in Hpast. specialize (Hpast kv Hkv).
    simpl in Hpast. specialize (Hmono (ticks w) k Hk). lia. }
  unfold _remove_expired_sessions.
  destruct (expire_loop_spec (length (webio_expire w)) v w Hwf (le_n _))
    as (He & Hs & _).
  rewrite (expired_count_all _ _ _ Hidle) in He, Hs.
  rewrite drop_all in He.
  rewrite take_ge in Hs by (unfold lru_keys; rewrite length_fmap; lia).
  split; [done|]. apply map_eq. intros sid. rewrite Hs, lookup_empty.
  case_decide as Hin; [done|].
  destruct (webio_sessions w !! sid) as [r|] eqn:Hr; [|done].
  exfalso. apply Hin. apply Hsame. eauto.
Qed.

(** ** More on eviction *)

Lemma lru_get_remove_ne (k k' : string) (d : LRUDict) :
  k' <> k -> lru_get k' (lru_remove k d) = lru_get k' d.
Proof.
  intros Hne. unfold lru_remove. induction d as [|[k0 v] d IH]; [done|].
  destruct (decide (k0 = k)) as [->|Hk0].
  - rewrite filter_cons_False by (simpl; intros H; by apply H).
    simpl. rewrite decide_False by congruence. exact IH.
  - rewrite filter_cons_True by (simpl; congruence).
    simpl. by rewrite IH.
Qed.

(** X16: evicting an id calls no session method and changes no object,
    clock or counter; every other id keeps its handle, its timestamp and
    its place in the order of the index; and the evictions of two ids
    commute. *)
Theorem remove_webio_session_frame (sid sid' : string) (w : World) :
  calls (_remove_webio_session sid w) = calls w
  /\ objects (_remove_webio_session sid w) = objects w
  /\ ticks (_remove_webio_session sid w) = ticks w
  /\ webio_expire (_remove_webio_session sid w) `sublist_of` webio_expire w
  /\ (sid' <> sid ->
      webio_sessions (_remove_webio_session sid w) !! sid' = webio_sessions w !! sid'
      /\ lru_get sid' (webio_expire (_remove_webio_session sid w))
         = lru_get sid' (webio_expire w))
  /\ _remove_webio_session sid (_remove_webio_session sid' w)
     = _remove_webio_session sid' (_remove_webio_session sid w).
Proof.
  split_and!; try done.
  - apply lru_remove_sublist.
  - intros Hne. simpl. split; [by apply lookup_delete_ne|].
    by apply lru_get_remove_ne.
  - unfold _remove_webio_session, with_expire, with_sessions, lru_pop. simpl.
    f_equal; [apply delete_delete|].
    unfold lru_remove. rewrite !list_filter_filter. apply list_filter_iff.
    intros kv. tauto.
Qed.

(** ** A request and its own sweep *)

Lemma lru_get_present (k : string) (v : Z) (d : LRUDict) :
  lru_wf d -> (k, v) ∈ d -> lru_get k d = Some v.
Proof.
  unfold lru_wf, lru_keys. induction d as [|[k0 v0] d IH]; intros Hwf Hin.
  { by apply elem_of_nil in Hin. }
  rewrite fmap_cons, NoDup_cons in Hwf. simpl in Hwf. destruct Hwf as [Hnin Hwf].
  simpl. apply elem_of_cons in Hin as [Heq|Hin].
  - injection Heq as <- <-. by rewrite decide_True.
  - rewrite decide_False; [by apply IH|].
    intros ->. apply Hnin. apply list_elem_of_fmap. by exists (k, v).
Qed.

Lemma clean_up_last_check (self : HttpHandler) (w : World) :
  last_check_session_expire_ts (clean_up_at_intervals self w)
  = if time_at (ticks w) - last_check_session_expire_ts w
       >? session_cleanup_interval self
    then time_at (S (ticks w)) else last_check_session_expire_ts w.
Proof.
  unfold clean_up_at_intervals. simpl. destruct (_ >? _); [|done].
  unfold _remove_expired_sessions.
  match goal with |- context [expire_loop ?f ?e ?x] =>
    by rewrite (proj1 (proj2 (expire_loop_frame f e x))) end.
Qed.

(** X17: the time of the last sweep changes exactly when a request served
    from a session finds the interval elapsed, and becomes the clock
    reading taken right after the one that was compared; a sweep started
    by [_remove_expired_sessions] alone does not record it. *)
Theorem sweep_time_recorded (self : HttpHandler) (req : Request) (w : World)
    (sid : string) (r : nat) (expire_seconds : Z) :
  request_method req <> "OPTIONS" ->
  truthy_opt (request_url_parameter req "test") = false ->
  request_headers req !! "webio-session-id" = Some sid ->
  sid <> "" ->
  webio_sessions w !! sid = Some r ->
  last_check_session_expire_ts (handle_request self req w).2
  = (if sweep_due self w then time_at (S (S (ticks w)))
     else last_check_session_expire_ts w)
  /\ (sweep_due self w = true -> (ticks w + 3 <= ticks (handle_request self req w).2)%nat)
  /\ last_check_session_expire_ts (_remove_expired_sessions expire_seconds w)
     = last_check_session_expire_ts w.
Proof.
  intros Hopt Htest Hsid Hne Hreg.
  rewrite (handle_request_established self req w sid r) by done.
  set (w1 := if String.eqb (request_method req) "POST"
             then match request_json req with
                  | Some event => call_send_client_event r event w
                  | None => w
                  end
             else w).
  assert (H1 : ticks w1 = ticks w
               /\ last_check_session_expire_ts w1 = last_check_session_expire_ts w).
  { unfold w1. destruct (String.eqb _ _); [|done]. by destruct (request_json req). }
  destruct H1 as [Ht1 Hl1].
  split_and!.
  - unfold serve_session. fold w1. clearbody w1. simpl.
    unfold remove_if_closed, call_closed.
    match goal with |- context [if ?b then _remove_webio_session _ _ else _] =>
      destruct b end; simpl;
      rewrite clean_up_last_check; simpl; unfold sweep_due; by rewrite Ht1, Hl1.
  - intros Hdue. unfold serve_session. fold w1. clearbody w1. simpl.
    rewrite ticks_remove_if_closed. simpl.
    unfold clean_up_at_intervals. simpl.
    unfold sweep_due in Hdue. rewrite Ht1, Hl1, Hdue.
    unfold _remove_expired_sessions.
    etransitivity; [|apply expire_loop_ticks]. simpl. lia.
  - unfold _remove_expired_sessions.
    by rewrite (proj1 (proj2 (expire_loop_frame _ _ _))).
Qed.

(** X18: where the clock never goes back, a request served from a
    registered session does not expire that session itself: if the last
    clock reading of the request is less than [session_expire_seconds]
    after the first one, and the session is not closed, the id is still
    registered after the request, with the first reading as its
    timestamp, whether or not a sweep ran. *)
Theorem served_session_survives (self : HttpHandler) (req : Request) (w : World)
    (sid : string) (r : nat) :
  clock_monotone ->
  index_inv (webio_expire w) (ticks w) ->
  request_method req <> "OPTIONS" ->
  truthy_opt (request_url_parameter req "test") = false ->
  request_headers req !! "webio-session-id" = Some sid ->
  sid <> "" ->
  webio_sessions w !! sid = Some r ->
  time_at (pred (ticks (handle_request self req w).2)) - time_at (ticks w)
    < session_expire_seconds self ->
  closed <$> objects (handle_request self req w).2 !! r = Some false ->
  webio_sessions (handle_request self req w).2 !! sid = Some r
  /\ lru_get sid (webio_expire (handle_request self req w).2) = Some (time_at (ticks w)).
Proof.
  intros Hmono Hinv Hopt Htest Hsid Hne Hreg.
  rewrite (handle_request_established self req w sid r) by done.
  unfold serve_session.
  set (w1 := if String.eqb (request_method req) "POST"
             then match request_json req with
                  | Some event => call_send_client_event r event w
                  | None => w
                  end
             else w).
  assert (H1 : ticks w1 = ticks w
               /\ webio_sessions w1 = webio_sessions w
               /\ webio_expire w1 = webio_expire w).
  { unfold w1. destruct (String.eqb _ _); [|done]. by destruct (request_json req). }
  destruct H1 as (Ht1 & Hs1 & He1). clearbody w1. simpl.
  rewrite ticks_remove_if_closed. simpl.
  rewrite (proj1 (proj2 (remove_if_closed_frame _ _ _))). simpl.
  rewrite Ht1, He1.
  set (d3 := lru_setitem sid (time_at (ticks w)) (webio_expire w)).
  assert (Hinv3 : index_inv d3 (S (ticks w))) by (by apply index_inv_touch).
  assert (Hin3 : (sid, time_at (ticks w)) ∈ d3).
  { unfold d3, lru_setitem. apply elem_of_app. right. by left. }
  match goal with |- context [clean_up_at_intervals self ?x] => set (w3 := x) end.
  assert (Hkeep : time_at (pred (ticks (clean_up_at_intervals self w3)))
                    - time_at (ticks w) < session_expire_seconds self ->
                  webio_sessions (clean_up_at_intervals self w3) !! sid = Some r
                  /\ lru_wf (webio_expire (clean_up_at_intervals self w3))
                  /\ (sid, time_at (ticks w))
                     ∈ webio_expire (clean_up_at_intervals self w3)).
  { unfold clean_up_at_intervals. simpl. destruct (_ >? _).
    - match goal with |- context [_remove_expired_sessions ?e ?x] => set (w3' := x) end.
      intros Hlast.
      assert (Hwf : lru_wf (webio_expire w3')) by apply Hinv3.
      assert (Hord : activity_ordered (webio_expire w3')) by apply Hinv3.
      destruct (sweep_moving_clock (session_expire_seconds self) w3' Hmono Hwf Hord)
        as [_ Hgone].
      destruct (sweep_outcome (session_expire_seconds self) w3' Hwf)
        as (He & Hpop & Hkept & _).
      assert (Hstay : (sid, time_at (ticks w))
                ∈ webio_expire (_remove_expired_sessions (session_expire_seconds self) w3')).
      { destruct (decide ((sid, time_at (ticks w))
                    ∈ webio_expire
                        (_remove_expired_sessions (session_expire_seconds self) w3')))
          as [Hd|Hd]; [done|].
        specialize (Hgone _ Hin3 Hd). simpl in Hgone. lia. }
      split_and!; [| |done].
      + destruct (decide (sid ∈ lru_keys
                    (take (expired_count (session_expire_seconds self)
                             (ticks w3') (webio_expire w3'))
                          (webio_expire w3')))) as [Hp|Hp].
        * destruct (Hpop sid Hp) as [Hout _]. exfalso. apply Hout.
          unfold lru_keys. apply list_elem_of_fmap.
          by exists (sid, time_at (ticks w)).
        * rewrite (Hkept sid Hp). simpl. by rewrite Hs1.
      + rewrite He. unfold lru_wf, lru_keys in *. rewrite fmap_drop.
        eapply sublist_NoDup; [exact Hwf|apply sublist_drop].
    - intros _. simpl. split_and!; [by rewrite Hs1|apply Hinv3|done]. }
  intros Hlast Hclosed. destruct (Hkeep Hlast) as (Hmap & Hwf4 & Hin4).
  clear Hkeep.
  set (w4 := clean_up_at_intervals self w3) in *. clearbody w4.
  unfold remove_if_closed, call_closed. simpl.
  destruct (alter _ r (objects w4) !! r) as [s|]; [|done].
  simpl in Hclosed. injection Hclosed as ->. simpl.
  split; [exact Hmap|]. by apply lru_get_present.
Qed.

(** ** More on the origin policy *)

(** X19: without a predicate, an empty pattern list is the same as none,
    and the verdict for the concatenation of two pattern lists is the
    disjunction of the verdicts for each: adding patterns never revokes an
    origin, and their order does not matter. *)
Theorem allowed_origins_union (tgt : Target) (cls : Target -> SessionInfo -> Session)
    (expire interval : option Z) (l1 l2 : list string) (origin : string) :
  check_origin (init tgt cls expire interval (Some (l1 ++ l2)) None) origin
  = check_origin (init tgt cls expire interval (Some l1) None) origin
    || check_origin (init tgt cls expire interval (Some l2) None) origin
  /\ check_origin (init tgt cls expire interval (Some (l1 ++ l2)) None) origin
     = check_origin (init tgt cls expire interval (Some (l2 ++ l1)) None) origin
  /\ check_origin (init tgt cls expire interval (Some []) None) origin
     = check_origin (init tgt cls expire interval None None) origin.
Proof.
  simpl. rewrite !existsb_app. split; [done|]. split; [apply orb_comm|done].
Qed.

End Coverage.

(** * Worked examples

    The statements above at the instance [Demo], and the runs on which the
    specification's wording and the handler differ. *)

Section Examples.
Import Demo.

Lemma world1_index : webio_expire world1 = [("sid-0", 0)].
Proof. vm_compute. reflexivity. Qed.

Lemma world1_ticks : ticks world1 = 2%nat.
Proof. vm_compute. reflexivity. Qed.

Lemma world1_sessions (sid : string) :
  webio_sessions world1 !! sid = if decide (sid = "sid-0") then Some O else None.
Proof.
  change (webio_sessions world1) with (<["sid-0" := O]> (∅ : gmap string nat)).
  case_decide as H; [subst; apply lookup_insert_eq|].
  rewrite lookup_insert_ne by done. apply lookup_empty.
Qed.

Lemma demo_clock_monotone : @clock_monotone demo_oracle.
Proof.
  intros i j Hij. simpl.
  destruct (Nat.ltb_spec i 2), (Nat.ltb_spec j 2); lia.
Qed.

Lemma demo_clock_late (k : nat) : (2 <= k)%nat -> @time_at demo_oracle k = 1000.
Proof. intros Hk. simpl. destruct (Nat.ltb_spec k 2); [lia|done]. Qed.

Lemma world1_wf : lru_wf (webio_expire world1).
Proof. rewrite world1_index. unfold lru_wf. simpl. apply NoDup_singleton. Qed.

Lemma world1_ordered : activity_ordered (webio_expire world1).
Proof. rewrite world1_index. unfold activity_ordered. simpl. repeat constructor. Qed.


(** *** C1 *)

(** A [POST] without session id is refused with 403 and changes nothing. *)
Lemma post_without_session_id_witness :
  request_method post_plain = "POST"
  /\ truthy_opt (request_headers post_plain !! "webio-session-id") = false
  /\ (handle handler post_plain world1).2 = world1
  /\ resp_status (handle handler post_plain world1).1 = 403.
Proof.
  split; [reflexivity|]. split; [reflexivity|].
  destruct (@post_without_session_id echo_ops demo_oracle handler post_plain world1
              eq_refl eq_refl) as (Hsame & Hplain & _).
  split; [exact Hsame|]. apply Hplain. reflexivity.
Defined.

(** The same [POST] sent as a liveness probe is answered 200, not 403. *)
Lemma post_probe_is_answered_ok :
  request_method post_probe = "POST"
  /\ request_headers post_probe !! "webio-session-id" = None
  /\ resp_status (handle handler post_probe world1).1 = 200
  /\ resp_status (handle handler post_probe world1).1 <> 403
  /\ resp_content (handle handler post_probe world1).1 = Some (JStr "ok", false).
Proof. vm_compute. repeat split; discriminate. Qed.

(** *** C2 *)



(** *** C3 *)

(** The task of [sid-0] has finished; the next [GET] removes the session
    from the session map and from the index, and [close()] is not called. *)
Lemma closed_session_removed_without_close :
  webio_sessions world1_done !! "sid-0" = Some O
  /\ resp_content (handle handler get_sid0 world1_done).1
     = Some (JArr [JStr "bye"], true)
  /\ webio_sessions (handle handler get_sid0 world1_done).2 !! "sid-0" = None
  /\ webio_expire (handle handler get_sid0 world1_done).2 = []
  /\ (CallClose O ∉ calls (handle handler get_sid0 world1_done).2).
Proof.
  split; [vm_compute; reflexivity|]. split; [vm_compute; reflexivity|].
  split; [vm_compute; reflexivity|]. split; [vm_compute; reflexivity|].
  assert (Hc : calls (handle handler get_sid0 world1_done).2
               = [CallGetTaskCommands O; CallClosed O;
                  CallGetTaskCommands O; CallClosed O])
    by (vm_compute; reflexivity).
  rewrite Hc. intros H.
  repeat (apply elem_of_cons in H as [H|H]; [discriminate|]).
  by apply elem_of_nil in H.
Qed.

Lemma destruction_removes_both_witness :
  lru_wf (webio_expire world1_done)
  /\ (@call_closed echo_ops O world1_done).1 = true
  /\ webio_sessions (@remove_if_closed echo_ops "sid-0" O world1_done) !! "sid-0" = None
  /\ calls (@remove_if_closed echo_ops "sid-0" O world1_done)
     = calls world1_done ++ [CallClosed O].
Proof.
  assert (Hwf : lru_wf (webio_expire world1_done)) by exact world1_wf.
  split; [exact Hwf|]. split; [reflexivity|].
  destruct (@destruction_removes_both echo_ops demo_oracle 60 "sid-0" O world1_done Hwf)
    as [Hexplicit _].
  destruct (Hexplicit eq_refl) as (Hmap & _ & Hcalls & _).
  split; [exact Hmap|exact Hcalls].
Defined.

(** *** C4 *)

Lemma unknown_session_closes_witness :
  (handle handler get_unknown world1).2 = world1
  /\ resp_status (handle handler get_unknown world1).1 = 200
  /\ resp_content (handle handler get_unknown world1).1
     = Some (JArr [JObj [("command", JStr "close_session")]], true).
Proof.
  apply (@unknown_session_closes echo_ops demo_oracle handler get_unknown world1 "nobody").
  - discriminate.
  - reflexivity.
  - reflexivity.
  - discriminate.
  - by rewrite world1_sessions.
Defined.


(** *** C5 *)

(** A sweep at 1000 with a threshold of 60 evicts [sid-0], last seen at 0;
    with a threshold of 2000 it leaves the index as it is. *)
Lemma sweep_evicts_idle_entries_witness :
  lru_wf (webio_expire world1)
  /\ ("sid-0" ∉ lru_keys (webio_expire (@_remove_expired_sessions echo_ops demo_oracle 60 world1)))
  /\ webio_sessions (@_remove_expired_sessions echo_ops demo_oracle 60 world1) !! "sid-0" = None
  /\ webio_expire (@_remove_expired_sessions echo_ops demo_oracle 2000 world1)
     = [("sid-0", 0)].
Proof.
  split; [exact world1_wf|].
  destruct (@sweep_evicts_idle_entries echo_ops demo_oracle 60 world1 world1_wf)
    as (_ & _ & _ & Hsweep).
  destruct (Hsweep 1000 world1_ordered) as [_ Hidle].
  { intros k Hk. rewrite world1_ticks in Hk. by apply demo_clock_late. }
  destruct (Hidle "sid-0" 0) as [Hidx Hmap].
  { rewrite world1_index. by left. }
  { vm_compute. discriminate. }
  split; [exact Hidx|]. split; [exact Hmap|].
  destruct (@sweep_evicts_idle_entries echo_ops demo_oracle 2000 world1 world1_wf)
    as (_ & Hfresh & _).
  destruct (Hfresh "sid-0" 0 [] world1_index) as [_ Hkept]; [|exact Hkept].
  vm_compute. reflexivity.
Defined.

(** *** C6 *)


(** *** C8 *)



(** *** C9 *)

Lemma remove_webio_session_idempotent_witness :
  @_remove_webio_session echo_ops "sid-0" (@_remove_webio_session echo_ops "sid-0" world1)
  = @_remove_webio_session echo_ops "sid-0" world1
  /\ @_remove_webio_session echo_ops "nobody" world1 = world1.
Proof.
  destruct (@remove_webio_session_idempotent echo_ops "sid-0" world1) as (Htwice & _).
  destruct (@remove_webio_session_idempotent echo_ops "nobody" world1)
    as (_ & _ & _ & Habsent).
  split; [exact Htwice|]. apply Habsent.
  - by rewrite world1_sessions.
  - rewrite world1_index. unfold lru_keys. simpl.
    intros H. apply list_elem_of_singleton in H. discriminate.
Defined.


(** *** More states of the example *)

Lemma world1_reachable : @reachable echo_ops demo_oracle world1.
Proof.
  eapply rtc_r; [apply rtc_refl|].
  exact (@step_request echo_ops demo_oracle handler get_new world0).
Qed.

Lemma world2_reachable : @reachable echo_ops demo_oracle world2.
Proof.
  eapply rtc_r; [exact world1_reachable|].
  exact (@step_request echo_ops demo_oracle handler get_sid0 world1).
Qed.

Lemma world2_sessions : webio_sessions world2 !! "sid-0" = Some O.
Proof. vm_compute. reflexivity. Qed.

Lemma world2_object :
  objects world2 !! O = Some {| echo_pending := []; echo_closed := false |}.
Proof. vm_compute. reflexivity. Qed.

Lemma world1_index_inv : @index_inv demo_oracle (webio_expire world1) (ticks world1).
Proof.
  split; [exact world1_wf|]. split; [exact world1_ordered|].
  rewrite world1_index, world1_ticks. repeat constructor. vm_compute. discriminate.
Qed.

(** *** Invariants of the registry *)

Lemma registry_and_index_agree_witness :
  @reachable echo_ops demo_oracle world2 /\ @registry_consistent echo_ops world2.
Proof.
  split; [exact world2_reachable|].
  exact (@registry_and_index_agree echo_ops demo_oracle world2 world2_reachable).
Defined.

Lemma registered_ids_are_minted_witness :
  @reachable echo_ops demo_oracle world2 /\ @ids_minted echo_ops demo_oracle world2.
Proof.
  split; [exact world2_reachable|].
  exact (@registered_ids_are_minted echo_ops demo_oracle world2 world2_reachable).
Defined.

Lemma handles_are_distinct_objects_witness :
  @reachable echo_ops demo_oracle world2 /\ @handles_distinct echo_ops world2.
Proof.
  split; [exact world2_reachable|].
  exact (@handles_are_distinct_objects echo_ops demo_oracle world2 world2_reachable).
Defined.

(** *** Responses *)

(** A preflight that bears a session id and a [test] parameter. *)
Lemma preflight_answer_witness :
  (handle handler_open options_any world2).2 = world2
  /\ resp_status (handle handler_open options_any world2).1 = 204
  /\ resp_content (handle handler_open options_any world2).1 = None
  /\ resp_headers (handle handler_open options_any world2).1
     = cors_headers "https://a.example.com".
Proof.
  exact (@preflight_answer echo_ops demo_oracle handler_open options_any world2 eq_refl).
Defined.

(** A [DELETE] probe that bears the id of a registered session. *)
Lemma probe_answer_witness :
  (handle handler probe_sid0 world2).2 = world2
  /\ resp_status (handle handler probe_sid0 world2).1 = 200
  /\ resp_content (handle handler probe_sid0 world2).1 = Some (JStr "ok", false)
  /\ resp_headers (handle handler probe_sid0 world2).1 = [].
Proof.
  apply (@probe_answer echo_ops demo_oracle handler probe_sid0 world2).
  - discriminate.
  - reflexivity.
Defined.

Lemma response_headers_witness :
  resp_headers (handle handler get_new world0).1 = [("webio-session-id", "sid-0")]
  /\ resp_headers (handle handler get_sid0 world1).1 = [].
Proof.
  split.
  - apply (@response_headers echo_ops demo_oracle handler get_new world0). discriminate.
  - apply (@response_headers echo_ops demo_oracle handler get_sid0 world1). discriminate.
Defined.

(** *** Requests served while no sweep is due *)

(** A [POST] with the event [click]: the echo session hands it back. *)
Lemma request_served_without_sweep_witness :
  resp_content (handle handler post_sid0 world2).1 = Some (JArr [JStr "click"], true)
  /\ webio_expire (handle handler post_sid0 world2).2 = [("sid-0", 1000)]
  /\ calls (handle handler post_sid0 world2).2
     = calls world2 ++ [CallSendClientEvent O (JStr "click");
                        CallGetTaskCommands O; CallClosed O]
  /\ ticks (handle handler post_sid0 world2).2 = 8%nat.
Proof.
  unfold handle.
  rewrite (@request_served_without_sweep echo_ops demo_oracle handler post_sid0 world2
             "sid-0" O {| echo_pending := []; echo_closed := false |}).
  - vm_compute. repeat split.
  - discriminate.
  - reflexivity.
  - reflexivity.
  - discriminate.
  - exact world2_sessions.
  - exact world2_object.
  - vm_compute. reflexivity.
Defined.

Lemma session_created_without_sweep_witness :
  resp_headers (handle handler get_new world0).1 = [("webio-session-id", "sid-0")]
  /\ webio_sessions (handle handler get_new world0).2 !! "sid-0" = Some O
  /\ webio_expire (handle handler get_new world0).2 = [("sid-0", 0)]
  /\ draws (handle handler get_new world0).2 = 1%nat.
Proof.
  destruct (@session_created_without_sweep echo_ops demo_oracle handler get_new world0)
    as [_ Heq].
  - reflexivity.
  - vm_compute. reflexivity.
  - unfold handle. rewrite Heq. vm_compute. repeat split.
Defined.

Lemma calls_of_a_served_request_witness :
  draws (handle handler post_sid0 world2).2 = draws world2
  /\ exists cl,
       calls (handle handler post_sid0 world2).2
       = calls world2 ++ delivery_calls post_sid0 O ++ cl
         ++ [CallGetTaskCommands O; CallClosed O].
Proof.
  destruct (@calls_of_a_served_request echo_ops demo_oracle handler post_sid0 world2
              "sid-0" O) as (Hdraws & _ & _ & cl & Hcalls & _).
  - discriminate.
  - reflexivity.
  - reflexivity.
  - discriminate.
  - exact world2_sessions.
  - split; [exact Hdraws|]. exists cl. exact Hcalls.
Defined.


(** *** Sweeps *)

Lemma sweep_pops_a_prefix_witness :
  exists popped,
    webio_expire world1
    = popped ++ webio_expire (@_remove_expired_sessions echo_ops demo_oracle 60 world1)
    /\ ticks (@_remove_expired_sessions echo_ops demo_oracle 60 world1)
       = (ticks world1 + length popped
          + match webio_expire (@_remove_expired_sessions echo_ops demo_oracle 60 world1) with
            | [] => 0
            | _ :: _ => 1
            end)%nat.
Proof.
  destruct (@sweep_pops_a_prefix echo_ops demo_oracle 60 world1 world1_wf)
    as (popped & Hsplit & Hticks & _).
  exists popped. split; [exact Hsplit|exact Hticks].
Defined.

Lemma sweep_with_advancing_clock_witness :
  (forall kv, kv ∈ webio_expire (@_remove_expired_sessions echo_ops demo_oracle 60 world1) ->
     @time_at demo_oracle
       (pred (ticks (@_remove_expired_sessions echo_ops demo_oracle 60 world1))) - kv.2 < 60)
  /\ (forall kv, kv ∈ webio_expire world1 ->
        kv ∉ webio_expire (@_remove_expired_sessions echo_ops demo_oracle 60 world1) ->
        60 <= @time_at demo_oracle
                (pred (ticks (@_remove_expired_sessions echo_ops demo_oracle 60 world1)))
              - kv.2).
Proof.
  exact (@sweep_with_advancing_clock echo_ops demo_oracle 60 world1
           demo_clock_monotone world1_wf world1_ordered).
Defined.

Lemma sweep_of_idle_index_witness :
  webio_expire (@_remove_expired_sessions echo_ops demo_oracle 60 world1) = []
  /\ ticks (@_remove_expired_sessions echo_ops demo_oracle 60 world1) = 3%nat.
Proof.
  destruct (@sweep_of_idle_index echo_ops demo_oracle 60 world1 world1_wf)
    as (Hidx & _ & Hticks).
  - intros kv k Hkv Hk. rewrite world1_index in Hkv. rewrite world1_ticks in Hk.
    apply list_elem_of_singleton in Hkv as ->. rewrite (demo_clock_late k Hk).
    vm_compute. discriminate.
  - split; [exact Hidx|]. rewrite Hticks, world1_ticks, world1_index. reflexivity.
Defined.

Lemma negative_expiry_evicts_everything_witness :
  webio_expire (@_remove_expired_sessions echo_ops demo_oracle (-1) world2) = []
  /\ webio_sessions (@_remove_expired_sessions echo_ops demo_oracle (-1) world2) = ∅.
Proof.
  destruct (@negative_expiry_evicts_everything echo_ops demo_oracle tt open_session (-1)
              None None None world2) as (_ & Hidx & Hmap).
  - reflexivity.
  - exact demo_clock_monotone.
  - exact world2_reachable.
  - split; [exact Hidx|exact Hmap].
Defined.

(** *** A request and its own sweep *)

Lemma sweep_time_recorded_witness :
  last_check_session_expire_ts (handle handler get_sid0 world1).2 = 1000
  /\ last_check_session_expire_ts (handle handler get_sid0 world2).2 = 1000.
Proof.
  destruct (@sweep_time_recorded echo_ops demo_oracle handler get_sid0 world1 "sid-0" O 60)
    as (H1 & _).
  { discriminate. } { reflexivity. } { reflexivity. } { discriminate. }
  { by rewrite world1_sessions. }
  destruct (@sweep_time_recorded echo_ops demo_oracle handler get_sid0 world2 "sid-0" O 60)
    as (H2 & _).
  { discriminate. } { reflexivity. } { reflexivity. } { discriminate. }
  { exact world2_sessions. }
  split.
  - unfold handle. rewrite H1. vm_compute. reflexivity.
  - unfold handle. rewrite H2. vm_compute. reflexivity.
Defined.

(** The request at 1000 sweeps with a threshold of 60 and keeps its own
    session, refreshed to 1000. *)
Lemma served_session_survives_witness :
  webio_sessions (handle handler get_sid0 world1).2 !! "sid-0" = Some O
  /\ lru_get "sid-0" (webio_expire (handle handler get_sid0 world1).2) = Some 1000.
Proof.
  apply (@served_session_survives echo_ops demo_oracle handler get_sid0 world1 "sid-0" O).
  - exact demo_clock_monotone.
  - exact world1_index_inv.
  - discriminate.
  - reflexivity.
  - reflexivity.
  - discriminate.
  - by rewrite world1_sessions.
  - vm_compute. reflexivity.
  - vm_compute. reflexivity.
Defined.

End Examples.
